(** * mpunch-catalog: image clean-up and file-name normalisation

    A shallow embedding of [src/data/normalize_filenames.py] and
    [src/data/imgnormalizer.py], and the properties of the two pipelines.

    Conventions of the embedding.
    - A Python [str] is a list of characters ([pystr]); characters are the
      8-bit code points of [ascii].  [str "..."] turns a literal into one.
    - [os.path] is [posixpath] and [pathlib.Path] is [PosixPath].
    - A JSON object is a finite map from keys to values; the only thing the
      programs look at in a value is whether it is a string and whether it
      is truthy, so every value that is not a string is [VOther] with its
      truth value.
    - A Python exception that the code does not catch is [None].
    - The operating system is an interface ([OS]): whether a path exists,
      and what renaming, copying, reading and writing a file do, is not
      decided by the programs.  [flatfs] is one instance, used in examples.
    - Console output is not modelled. *)

From Stdlib Require Import ZArith Ascii String List.
From stdpp Require Import gmap strings list fin_maps.

Open Scope Z_scope.

(** ** Strings *)

Abbreviation pystr := (list ascii).

Definition str (s : string) : pystr := list_ascii_of_string s.

Module Py.

(** [s.rfind(c)] for a one-character [c]: the highest index, or -1. *)
Fixpoint rfind (c : ascii) (s : pystr) : Z :=
  match s with
  | [] => -1
  | x :: s' =>
      let r := rfind c s' in
      if 0 <=? r then r + 1
      else if bool_decide (x = c) then 0 else -1
  end.

(** The position a slice bound denotes in [s]: negative bounds count from
    the end, and everything is clipped to the string. *)
Definition bound (s : pystr) (i : Z) : nat :=
  if i <? 0 then Z.to_nat (Z.max 0 (Z.of_nat (length s) + i))
  else Z.to_nat i.

(** [s[:i]], [s[i:]] and [s[i:j]]. *)
Definition slice_to (i : Z) (s : pystr) : pystr := take (bound s i) s.
Definition slice_from (i : Z) (s : pystr) : pystr := drop (bound s i) s.
Definition slice (i j : Z) (s : pystr) : pystr :=
  drop (bound s i) (take (bound s j) s).

(** [s.replace(a, b)] for one-character [a] and [b]. *)
Definition replace (a b : ascii) (s : pystr) : pystr :=
  (fun c => if bool_decide (c = a) then b else c) <$> s.

(** [c in s] for a one-character [c]. *)
Definition contains (c : ascii) (s : pystr) : bool := bool_decide (c ∈ s).

(** [s.split(sep)] for a one-character [sep]: never the empty list. *)
Fixpoint split (sep : ascii) (s : pystr) : list pystr :=
  match s with
  | [] => [[]]
  | c :: s' =>
      if bool_decide (c = sep) then [] :: split sep s'
      else match split sep s' with
           | [] => [[c]]
           | seg :: segs => (c :: seg) :: segs
           end
  end.

(** [sep.join(parts)]. *)
Fixpoint join (sep : pystr) (parts : list pystr) : pystr :=
  match parts with
  | [] => []
  | [p] => p
  | p :: ps => p ++ sep ++ join sep ps
  end.

(** [parts[-1]] and [parts[-1] = x] on a list that is not empty. *)
Definition last_part (parts : list pystr) : pystr := List.last parts [].
Definition set_last_part (x : pystr) (parts : list pystr) : list pystr :=
  match parts with
  | [] => []
  | _ => removelast parts ++ [x]
  end.

(** [c.lower()] on the code points below 256: A-Z and the accented
    capitals of Latin-1 move up by 32. *)
Definition lower_char (c : ascii) : ascii :=
  let n := nat_of_ascii c in
  if ((65 <=? n) && (n <=? 90))%nat
     || ((192 <=? n) && (n <=? 222) && negb (n =? 215))%nat
  then ascii_of_nat (n + 32) else c.

Definition lower (s : pystr) : pystr := lower_char <$> s.

End Py.

(** ** [posixpath] *)

Module posixpath.

Definition sep : ascii := "/"%char.
Definition extsep : ascii := "."%char.

(** [genericpath._splitext]: the loop that skips the leading dots of the
    last component, [n] iterations from [filenameIndex] on. *)
Fixpoint _splitext_loop (n : nat) (p : pystr) (filenameIndex dotIndex : Z)
  : pystr * pystr :=
  match n with
  | O => (p, Py.slice_to 0 p)
  | S n' =>
      if negb (bool_decide
                 (Py.slice filenameIndex (filenameIndex + 1) p = [extsep]))
      then (Py.slice_to dotIndex p, Py.slice_from dotIndex p)
      else _splitext_loop n' p (filenameIndex + 1) dotIndex
  end.

(** [os.path.splitext] ([altsep] is [None] on POSIX). *)
Definition splitext (p : pystr) : pystr * pystr :=
  let sepIndex := Py.rfind sep p in
  let dotIndex := Py.rfind extsep p in
  if sepIndex <? dotIndex then
    let filenameIndex := sepIndex + 1 in
    _splitext_loop (Z.to_nat (dotIndex - filenameIndex)) p
                   filenameIndex dotIndex
  else (p, Py.slice_to 0 p).

(** [os.path.basename]. *)
Definition basename (p : pystr) : pystr :=
  let i := Py.rfind sep p + 1 in
  Py.slice_from i p.

(** [os.path.join] of two paths. *)
Definition join (a b : pystr) : pystr :=
  if bool_decide (take 1 b = [sep]) then b
  else if bool_decide (a = []) || bool_decide (List.last a "x"%char = sep)
       then a ++ b
       else a ++ [sep] ++ b.

(** [os.path.splitroot], without the drive, which is always empty. *)
Definition splitroot (p : pystr) : pystr * pystr :=
  if negb (bool_decide (Py.slice 0 1 p = [sep])) then ([], p)
  else if negb (bool_decide (Py.slice 1 2 p = [sep]))
          || bool_decide (Py.slice 2 3 p = [sep])
       then ([sep], Py.slice_from 1 p)
       else (Py.slice_to 2 p, Py.slice_from 2 p).

End posixpath.

(** ** [pathlib] *)

Module pathlib.

(** A path object is the string it was made from; everything else is
    computed from its parsed form. *)
Definition Path := pystr.

(** [Path(a) / b]. *)
Definition truediv (a : Path) (b : pystr) : Path := posixpath.join a b.

(** [PurePath._parse_path]: the root and the components that are neither
    empty nor a single dot. *)
Definition _parse_path (path : pystr) : pystr * list pystr :=
  if bool_decide (path = []) then ([], [])
  else
    let '(root, rel) := posixpath.splitroot path in
    (root,
     filter (fun x => x ≠ [] ∧ x ≠ [posixpath.extsep])
            (Py.split posixpath.sep rel)).

(** [str(path)]. *)
Definition to_str (p : Path) : pystr :=
  let '(root, tail) := _parse_path p in
  let s := root ++ Py.join [posixpath.sep] tail in
  if bool_decide (s = []) then [posixpath.extsep] else s.

(** [p == q]: on POSIX two paths are equal when their strings are. *)
Definition eqb (p q : Path) : bool := bool_decide (to_str p = to_str q).

(** [path.suffix] of a path whose last component is [name]. *)
Definition suffix_of_name (name : pystr) : pystr :=
  let i := Py.rfind posixpath.extsep name in
  if (0 <? i) && (i <? Z.of_nat (length name) - 1)
  then Py.slice_from i name else [].

End pathlib.

(** ** JSON documents *)

Inductive value : Type :=
| VStr (s : pystr)
| VOther (truthy : bool).

Global Instance value_eq_dec : EqDecision value.
Proof. solve_decision. Defined.

(** The truth value of a JSON value in a condition. *)
Definition truthy (v : value) : bool :=
  match v with
  | VStr s => negb (bool_decide (s = []))
  | VOther b => b
  end.

Abbreviation item := (gmap pystr value).
Abbreviation document := (list item).

Definition image_url : pystr := str "image_url".

(** ** The operating system *)

(** What [json.load] on a file gives. *)
Inductive load_result : Type :=
| Loaded (data : document)
| FileNotFound
| JSONDecodeError
| OtherError.

Class OS (FS : Type) : Type := {
  (** [Path.exists]: [os.stat] succeeds.  A check that raises (a name
      longer than the system allows) is not modelled. *)
  exists_ : FS -> pystr -> bool;
  (** [os.rename]; [None] when it raises *)
  rename : pystr -> pystr -> FS -> option FS;
  (** [shutil.copy2]; [None] when it raises *)
  copy2 : pystr -> pystr -> FS -> option FS;
  (** [open(path, 'w')] followed by [json.dump]; [None] when either
      raises.  What a write that raised has left in the file is not
      modelled. *)
  dump : pystr -> document -> FS -> option FS;
  (** [open(path, 'r')] followed by [json.load] *)
  load : pystr -> FS -> load_result
}.

(** ** normalize_filenames.py *)

Definition normalize_filename (filename : pystr) : pystr :=
  if bool_decide (filename = []) then filename
  else
    let '(name_part, extension) := posixpath.splitext filename in
    let last_underscore_idx := Py.rfind "_"%char name_part in
    if last_underscore_idx =? -1 then filename
    else
      let normalized_name := Py.slice_to last_underscore_idx name_part in
      normalized_name ++ extension.

Definition normalize_image_path (image_path : pystr) : pystr :=
  if bool_decide (image_path = []) then image_path
  else
    let path_parts := Py.split "/"%char (Py.replace "\"%char "/"%char image_path) in
    let filename := Py.last_part path_parts in
    let normalized_filename := normalize_filename filename in
    let path_parts := Py.set_last_part normalized_filename path_parts in
    let normalized_path := Py.join [ "/"%char ] path_parts in
    if Py.contains "\"%char image_path
    then Py.replace "/"%char "\"%char normalized_path
    else normalized_path.

(** An operation is the tuple [(old_file_path, new_file_path, json_index)]. *)
Abbreviation operation := (pystr * pystr * nat)%type.

Definition op_old (o : operation) : pystr := o.1.1.
Definition op_new (o : operation) : pystr := o.1.2.
Definition op_idx (o : operation) : nat := o.2.

Section Programs.

Context {FS : Type} `{!OS FS}.

(** One round of the loop of [get_file_operations]: [Some None] is
    [continue], [Some (Some op)] appends [op], [None] is the
    [AttributeError] of calling [replace] on a value that is no string. *)
Definition plan_item (fs : FS) (data_folder_path : pathlib.Path)
           (idx : nat) (it : item) : option (option operation) :=
  match it !! image_url with
  | None => Some None
  | Some v =>
      if negb (truthy v) then Some None
      else
        match v with
        | VOther _ => None
        | VStr current_path =>
            let current_filename :=
              posixpath.basename (Py.replace "\"%char "/"%char current_path) in
            let normalized_filename := normalize_filename current_filename in
            if bool_decide (current_filename = normalized_filename) then Some None
            else
              let old_file_path := pathlib.truediv data_folder_path current_filename in
              let new_file_path := pathlib.truediv data_folder_path normalized_filename in
              if negb (exists_ fs (pathlib.to_str old_file_path)) then Some None
              else if exists_ fs (pathlib.to_str new_file_path)
                      && negb (pathlib.eqb new_file_path old_file_path)
                   then Some None
                   else Some (Some (pathlib.to_str old_file_path,
                                    pathlib.to_str new_file_path, idx))
        end
  end.

(** The loop over [enumerate(json_data)], from index [idx] on. *)
Fixpoint plan_from (fs : FS) (data_folder_path : pathlib.Path)
         (idx : nat) (json_data : document) : option (list operation) :=
  match json_data with
  | [] => Some []
  | it :: rest =>
      match plan_item fs data_folder_path idx it with
      | None => None
      | Some o =>
          match plan_from fs data_folder_path (S idx) rest with
          | None => None
          | Some ops => Some (option_list o ++ ops)
          end
      end
  end.

Definition get_file_operations (json_data : document) (data_folder : pystr)
           (fs : FS) : option (list operation) :=
  plan_from fs data_folder 0%nat json_data.

(** What the executor has done so far: the file system, the document in
    memory, the counter and the system calls made, in the order made. *)
Inductive call : Type :=
| CallRename (old new : pystr) (ok : bool)
| CallCopy2 (src dst : pystr) (ok : bool)
| CallDump (path : pystr) (data : document) (ok : bool).

Record state : Type := State {
  st_fs : FS;
  st_json_data : document;
  st_success_count : nat;
  st_calls : list call
}.

(** [json_data[json_idx]['image_url'] = normalize_image_path(...)]:
    [None] when the index, the key or the call on the value raises. *)
Definition patch_record (json_idx : nat) (json_data : document)
  : option document :=
  match json_data !! json_idx with
  | None => None
  | Some it =>
      match it !! image_url with
      | None => None
      | Some (VStr old_image_url) =>
          let new_image_url := normalize_image_path old_image_url in
          Some (<[json_idx := <[image_url := VStr new_image_url]> it]> json_data)
      | Some (VOther b) =>
          if b then None
          else Some (<[json_idx := <[image_url := VOther b]> it]> json_data)
      end
  end.

(** The body of the [for] loop of [perform_normalization], with its
    [try] and [except Exception]. *)
Definition run_operation (st : state) (o : operation) : state :=
  let '(old_path, new_path, json_idx) := o in
  match rename old_path new_path (st_fs st) with
  | None =>
      State (st_fs st) (st_json_data st) (st_success_count st)
            (st_calls st ++ [CallRename old_path new_path false])
  | Some fs' =>
      let calls := st_calls st ++ [CallRename old_path new_path true] in
      match patch_record json_idx (st_json_data st) with
      | None => State fs' (st_json_data st) (st_success_count st) calls
      | Some json_data' => State fs' json_data' (S (st_success_count st)) calls
      end
  end.

Definition run_operations (operations : list operation) (st : state) : state :=
  fold_left run_operation operations st.

(** How a run of the program ends. *)
Inductive outcome : Type :=
| Returned (st : state)
| SysExit (st : state)
| Uncaught (st : state).

Definition save_json_data (json_file_path : pystr) (data : document)
           (backup : bool) (st : state) : outcome :=
  let after_backup :=
    if backup then
      let backup_path := json_file_path ++ str ".backup" in
      match copy2 json_file_path backup_path (st_fs st) with
      | None =>
          inl (State (st_fs st) (st_json_data st) (st_success_count st)
                     (st_calls st ++ [CallCopy2 json_file_path backup_path false]))
      | Some fs' =>
          inr (State fs' (st_json_data st) (st_success_count st)
                     (st_calls st ++ [CallCopy2 json_file_path backup_path true]))
      end
    else inr st in
  match after_backup with
  | inl st' => Uncaught st'
  | inr st' =>
      match dump json_file_path data (st_fs st') with
      | None =>
          SysExit (State (st_fs st') (st_json_data st') (st_success_count st')
                         (st_calls st' ++ [CallDump json_file_path data false]))
      | Some fs' =>
          Returned (State fs' (st_json_data st') (st_success_count st')
                          (st_calls st' ++ [CallDump json_file_path data true]))
      end
  end.

(** The part of [perform_normalization] after the confirmation: the loop
    and the decision to save. *)
Definition execute (json_file_path : pystr) (operations : list operation)
           (st : state) : outcome :=
  let st' := run_operations operations st in
  if (0 <? st_success_count st')%nat
  then save_json_data json_file_path (st_json_data st') true st'
  else Returned st'.

(** [response] is the line [input] read. *)
Definition perform_normalization (json_file_path data_folder : pystr)
           (dry_run : bool) (response : pystr) (fs : FS) : outcome :=
  match load json_file_path fs with
  | FileNotFound | JSONDecodeError => SysExit (State fs [] 0%nat [])
  | OtherError => Uncaught (State fs [] 0%nat [])
  | Loaded json_data =>
      let st := State fs json_data 0%nat [] in
      match get_file_operations json_data data_folder fs with
      | None => Uncaught st
      | Some operations =>
          if bool_decide (operations = []) then Returned st
          else if dry_run then Returned st
          else if negb (bool_decide (Py.lower response ∈ [str "y"; str "yes"]))
               then Returned st
               else execute json_file_path operations st
      end
  end.

End Programs.

Arguments state : clear implicits.
Arguments outcome : clear implicits.

(** ** imgnormalizer.py *)

(** One round of the loop of [extract_referenced_images]; [None] is the
    [AttributeError] of a truthy value that is no string. *)
Definition extract_item (referenced_images : gset pystr) (it : item)
  : option (gset pystr) :=
  match it !! image_url with
  | None => Some referenced_images
  | Some v =>
      if truthy v then
        match v with
        | VOther _ => None
        | VStr image_path =>
            let filename :=
              posixpath.basename (Py.replace "\"%char "/"%char image_path) in
            if negb (bool_decide (filename = []))
            then Some (referenced_images ∪ {[filename]})
            else Some referenced_images
        end
      else Some referenced_images
  end.

Fixpoint extract_loop (referenced_images : gset pystr) (json_data : document)
  : option (gset pystr) :=
  match json_data with
  | [] => Some referenced_images
  | it :: rest =>
      match extract_item referenced_images it with
      | None => None
      | Some referenced_images' => extract_loop referenced_images' rest
      end
  end.

Definition extract_referenced_images (json_data : document)
  : option (gset pystr) :=
  extract_loop ∅ json_data.

(** An entry of [folder.iterdir()]: its name and whether it is a file. *)
Record dir_entry : Type := DirEntry {
  entry_name : pystr;
  entry_is_file : bool
}.

Definition image_extensions : list pystr :=
  [str ".png"; str ".jpg"; str ".jpeg"; str ".gif"; str ".bmp"; str ".tiff";
   str ".webp"].

(** [folder] is the listing of the folder, [None] when it does not exist
    (the program then exits: [None]). *)
Definition get_images_in_folder (folder : option (list dir_entry))
  : option (gset pystr) :=
  match folder with
  | None => None
  | Some entries =>
      Some (fold_left
              (fun images_in_folder e =>
                 if entry_is_file e
                    && bool_decide (Py.lower (pathlib.suffix_of_name (entry_name e))
                                      ∈ image_extensions)
                 then images_in_folder ∪ {[entry_name e]}
                 else images_in_folder)
              entries ∅)
  end.

(** [unused_images] as [remove_unused_images] computes it. *)
Definition unused_images (folder : option (list dir_entry))
           (referenced_images : gset pystr) : option (gset pystr) :=
  match get_images_in_folder folder with
  | None => None
  | Some images_in_folder => Some (images_in_folder ∖ referenced_images)
  end.

(** The clean-up pipeline of [main]: the references of the document, then
    the unused images of the folder. *)
Definition find_unused (json_data : document) (folder : option (list dir_entry))
  : option (gset pystr) :=
  match extract_referenced_images json_data with
  | None => None
  | Some referenced_images => unused_images folder referenced_images
  end.


(** ** A flat file system

    One instance of [OS]: a finite map from path strings to what is there.
    Renaming moves an entry (and replaces what was at the destination, as
    POSIX does for files) and fails when the source is missing. *)

Inductive node : Type :=
| Directory
| Image
| JsonFile (data : document).

Abbreviation flatfs := (gmap pystr node).

Definition flat_rename (old new : pystr) (fs : flatfs) : option flatfs :=
  match fs !! old with
  | None => None
  | Some n => Some (<[new := n]> (delete old fs))
  end.

Definition flat_copy2 (src dst : pystr) (fs : flatfs) : option flatfs :=
  match fs !! src with
  | None | Some Directory => None
  | Some n => Some (<[dst := n]> fs)
  end.

Definition flat_dump (path : pystr) (data : document) (fs : flatfs)
  : option flatfs :=
  match fs !! path with
  | Some Directory => None
  | _ => Some (<[path := JsonFile data]> fs)
  end.

Definition flat_load (path : pystr) (fs : flatfs) : load_result :=
  match fs !! path with
  | None => FileNotFound
  | Some Directory => OtherError
  | Some Image => JSONDecodeError
  | Some (JsonFile data) => Loaded data
  end.

Global Instance flatfs_os : OS flatfs := {|
  exists_ fs p := bool_decide (is_Some (fs !! p));
  rename := flat_rename;
  copy2 := flat_copy2;
  dump := flat_dump;
  load := flat_load
|}.

(** ** The specification's wording

    Definitions that follow the sentences of the specification rather than
    the code, to compare the code with. *)

Module Spec.

(** "Splits the input into (stem, extension) at the last [.] (extension
    may be empty if none present)." *)
Definition split_at_last_dot (f : pystr) : pystr * pystr :=
  let i := Py.rfind "."%char f in
  if i <? 0 then (f, []) else (Py.slice_to i f, Py.slice_from i f).

(** "Locates the last [_] in the stem. If absent, output = input
    unchanged.  Otherwise output = stem truncated before that [_],
    concatenated with the original extension." *)
Definition normalize (f : pystr) : pystr :=
  let '(stem, ext) := split_at_last_dot f in
  let j := Py.rfind "_"%char stem in
  if j <? 0 then f else Py.slice_to j stem ++ ext.

(** The components of a path "split on both [/] and [\]". *)
Definition components (p : pystr) : list pystr :=
  Py.split "/"%char (Py.replace "\"%char "/"%char p).

(** The "last non-empty component", empty when there is none. *)
Definition last_nonempty_component (p : pystr) : pystr :=
  List.last (filter (fun x => x ≠ []) (components p)) [].

(** What a record adds to the referenced names. *)
Definition reference (it : item) : option pystr :=
  match it !! image_url with
  | Some (VStr u) =>
      let n := last_nonempty_component u in
      if bool_decide (n = []) then None else Some n
  | _ => None
  end.

Definition referenced (json_data : document) : gset pystr :=
  list_to_set (omap reference json_data).

(** Where the trailing file-name segment of a path starts: after its last
    separator of either kind. *)
Definition filename_start (p : pystr) : Z :=
  Z.max (Py.rfind "/"%char p) (Py.rfind "\"%char p) + 1.

(** "Replacing only the trailing filename segment with the canonical
    filename": everything before the segment is kept as it is. *)
Definition rewrite_path (p : pystr) : pystr :=
  Py.slice_to (filename_start p) p
  ++ normalize_filename (Py.slice_from (filename_start p) p).

End Spec.

(** ** Terms of the properties *)

(** The file name of an [image_url], the way both programs take it from
    the path, and the part of the path before it. *)
Definition url_filename (u : pystr) : pystr :=
  posixpath.basename (Py.replace "\"%char "/"%char u).

Definition url_dir (u : pystr) : pystr :=
  take (length u - length (url_filename u)) u.

(** [ext] is an extension of [p] with stem [stem]: it starts at the last
    dot of [p], no [/] follows that dot, and the last component of the stem
    has a character that is not a dot. *)
Definition has_extension (p stem ext : pystr) : Prop :=
  ∃ e, p = stem ++ ext ∧ ext = "."%char :: e ∧ ("."%char ∉ e) ∧ ("/"%char ∉ e)
       ∧ ∃ c, c ∈ posixpath.basename stem ∧ c ≠ "."%char.

(** [n] is the trailing segment of the path [p]: what follows the last
    separator of either kind (all of [p] when it has none). *)
Definition trailing_segment (p n : pystr) : Prop :=
  ∃ dir, p = dir ++ n ∧ ("/"%char ∉ n) ∧ ("\"%char ∉ n)
         ∧ (dir = [] ∨ ∃ d c, dir = d ++ [c] ∧ (c = "/"%char ∨ c = "\"%char)).

(** The extensions of the allow-list, without their dot. *)
Definition image_extension_names : list string :=
  ["png"; "jpg"; "jpeg"; "gif"; "bmp"; "tiff"; "webp"]%string.

(** [n] is a name with one of the image extensions, in any case: a
    non-empty stem, a dot, and an extension without a dot that is one of
    the allow-list once lowered. *)
Definition has_image_extension (n : pystr) : Prop :=
  ∃ stem e ext, n = stem ++ "."%char :: e ∧ stem ≠ []
                ∧ ext ∈ image_extension_names ∧ Py.lower e = str ext.

(** What the planner has established about an operation it returns: it
    belongs to a record with a non-empty string [image_url] whose file name
    is not normalised; it renames that file to its normalised name, inside
    the folder; the source is there and the destination is not. *)
Definition planned {FS : Type} `{!OS FS} (fs : FS) (data_folder : pystr)
           (json_data : document) (o : operation) : Prop :=
  ∃ it u,
    json_data !! op_idx o = Some it
    ∧ it !! image_url = Some (VStr u)
    ∧ u ≠ []
    ∧ url_filename u ≠ normalize_filename (url_filename u)
    ∧ op_old o = pathlib.to_str (pathlib.truediv data_folder (url_filename u))
    ∧ op_new o = pathlib.to_str
                   (pathlib.truediv data_folder
                      (normalize_filename (url_filename u)))
    ∧ exists_ fs (op_old o) = true
    ∧ (exists_ fs (op_new o) = false ∨ op_new o = op_old o).

(** No [image_url] of the document is a truthy value other than a string. *)
Definition well_typed (json_data : document) : Prop :=
  ∀ it b, it ∈ json_data -> it !! image_url = Some (VOther b) -> b = false.

(** The state in which a run of the program ends. *)
Definition final_state {FS : Type} (out : outcome FS) : state FS :=
  match out with
  | Returned st | SysExit st | Uncaught st => st
  end.

(** ** Examples *)

Module Examples.

(** A record with nothing but an [image_url]. *)
Definition record (u : string) : item := {[ image_url := VStr (str u) ]}.

(** Two pictures whose names differ in the hash only. *)
Definition two_hashes : document :=
  [record "imgs/a_1.png"; record "imgs/a_2.png"].

Definition two_hashes_fs : flatfs :=
  {[ str "imgs" := Directory;
     str "imgs/a_1.png" := Image;
     str "imgs/a_2.png" := Image ]}.

(** Two records that refer to one picture, and a third with its own. *)
Definition shared_picture : document :=
  [record "imgs/a_1.png"; record "old\a_1.png"; record "imgs/b_2.png"].

Definition shared_picture_fs : flatfs :=
  {[ str "imgs" := Directory;
     str "catalog.json" := JsonFile shared_picture;
     str "imgs/a_1.png" := Image;
     str "imgs/b_2.png" := Image ]}.

Definition shared_picture_ops : list operation :=
  [(str "imgs/a_1.png", str "imgs/a.png", 0%nat);
   (str "imgs/a_1.png", str "imgs/a.png", 1%nat);
   (str "imgs/b_2.png", str "imgs/b.png", 2%nat)].

(** The record of the specification's scenario, and its folder. *)
Definition christmas : document :=
  [record "imgs/1860-12-26_a-merry-christmas_Desconhecido_6733e6c8a768333c2576e98d.png"].

Definition christmas_fs : flatfs :=
  {[ str "imgs" := Directory;
     str "catalog.json" := JsonFile christmas;
     str "imgs/1860-12-26_a-merry-christmas_Desconhecido_6733e6c8a768333c2576e98d.png"
       := Image ]}.

(** A folder for the clean-up. *)
Definition listing : list dir_entry :=
  [DirEntry (str "a.png") true; DirEntry (str "b.PNG") true;
   DirEntry (str "notes.txt") true; DirEntry (str "c.gif") false;
   DirEntry (str ".png") true].

Definition referencing_a : document := [record "imgs/a.png"; record "imgs/x/"].

(** A catalogue that is kept in the image folder under a name with a
    suffix, and that one of its own records refers to. *)
Definition own_catalog : document := [record "imgs/cat_1.json"].

Definition own_catalog_fs : flatfs :=
  {[ str "imgs" := Directory;
     str "imgs/cat_1.json" := JsonFile own_catalog ]}.

End Examples.

(** ** The entry point of normalize_filenames.py *)

Section Main.

Context {FS : Type} `{!OS FS}.

(** [main], after the arguments are parsed: [json_file], [data_folder] and
    [dry_run] are the arguments, [response] is the line [input] reads. *)
Definition main (json_file data_folder : pystr) (dry_run : bool)
           (response : pystr) (fs : FS) : outcome FS :=
  if negb (exists_ fs json_file) then SysExit (State fs [] 0%nat [])
  else if negb (exists_ fs data_folder) then SysExit (State fs [] 0%nat [])
  else perform_normalization json_file data_folder dry_run response fs.

End Main.

(** A call is a rename that succeeded. *)
Definition rename_succeeded (c : call) : bool :=
  match c with
  | CallRename _ _ ok => ok
  | _ => false
  end.

(** The record at an index has a string [image_url]. *)
Definition has_url (doc : document) (i : nat) : Prop :=
  ∃ it u, doc !! i = Some it ∧ it !! image_url = Some (VStr u).

(** Two records that differ in nothing but the value of [image_url],
    which both have or both lack. *)
Definition same_but_image_url (it it' : item) : Prop :=
  dom it' = dom it ∧ ∀ k, k ≠ image_url -> it' !! k = it !! k.

(** ** Deleting the unused images: the rest of imgnormalizer.py *)

(** What the clean-up asks of the operating system beyond [OS]:
    [iterdir] lists a folder ([None] when it raises) and [unlink] deletes
    a file ([None] when it raises [OSError]). *)
Class Folders (FS : Type) : Type := {
  iterdir : FS -> pystr -> option (list dir_entry);
  unlink : pystr -> FS -> option FS
}.

Inductive cleanup_call : Type :=
| CallUnlink (path : pystr) (ok : bool).

Definition unlink_path (c : cleanup_call) : pystr :=
  match c with CallUnlink path _ => path end.

Definition unlink_succeeded (c : cleanup_call) : bool :=
  match c with CallUnlink _ ok => ok end.

Record cleanup_state (FS : Type) : Type := CleanupState {
  cl_fs : FS;
  cl_deleted_count : nat;
  cl_calls : list cleanup_call
}.

Arguments CleanupState {FS}.
Arguments cl_fs {FS}.
Arguments cl_deleted_count {FS}.
Arguments cl_calls {FS}.

Inductive cleanup_outcome (FS : Type) : Type :=
| CleanupReturned (st : cleanup_state FS)
| CleanupExit (st : cleanup_state FS)
| CleanupUncaught (st : cleanup_state FS).

Arguments CleanupReturned {FS}.
Arguments CleanupExit {FS}.
Arguments CleanupUncaught {FS}.

Definition cleanup_final {FS : Type} (out : cleanup_outcome FS)
  : cleanup_state FS :=
  match out with
  | CleanupReturned st | CleanupExit st | CleanupUncaught st => st
  end.

Section Cleanup.

Context {FS : Type} `{!OS FS} `{!Folders FS}.

(** The folder as [get_images_in_folder] finds it: [None] when
    [os.path.exists] fails, [Some None] when listing it raises. *)
Definition scan (fs : FS) (folder_path : pystr)
  : option (option (list dir_entry)) :=
  if negb (exists_ fs folder_path) then None
  else Some (iterdir fs folder_path).

(** The body of the deletion loop, with its [try] and [except OSError]. *)
Definition delete_image (folder_path : pystr) (st : cleanup_state FS)
           (image : pystr) : cleanup_state FS :=
  let image_path := pathlib.to_str (pathlib.truediv folder_path image) in
  match unlink image_path (cl_fs st) with
  | Some fs' =>
      CleanupState fs' (S (cl_deleted_count st))
                   (cl_calls st ++ [CallUnlink image_path true])
  | None =>
      CleanupState (cl_fs st) (cl_deleted_count st)
                   (cl_calls st ++ [CallUnlink image_path false])
  end.

(** The loop [for image in unused_images], over the images in the order
    the set gives them. *)
Definition delete_images (folder_path : pystr) (images : list pystr)
           (st : cleanup_state FS) : cleanup_state FS :=
  fold_left (delete_image folder_path) images st.

(** [remove_unused_images]; the set is visited in the order of
    [elements]. *)
Definition remove_unused_images (folder_path : pystr)
           (referenced_images : gset pystr) (dry_run : bool)
           (response : pystr) (fs : FS) : cleanup_outcome FS :=
  let st := CleanupState fs 0%nat [] in
  match scan fs folder_path with
  | None => CleanupExit st
  | Some None => CleanupUncaught st
  | Some (Some entries) =>
      match get_images_in_folder (Some entries) with
      | None => CleanupExit st
      | Some images_in_folder =>
          let unused_images := images_in_folder ∖ referenced_images in
          if bool_decide (unused_images = ∅) then CleanupReturned st
          else if dry_run then CleanupReturned st
          else if negb (bool_decide (Py.lower response ∈ [str "y"; str "yes"]))
               then CleanupReturned st
               else CleanupReturned
                      (delete_images folder_path (elements unused_images) st)
      end
  end.

(** [main] of imgnormalizer.py, after the arguments are parsed. *)
Definition cleanup_main (json_file data_folder : pystr) (dry_run : bool)
           (response : pystr) (fs : FS) : cleanup_outcome FS :=
  let st := CleanupState fs 0%nat [] in
  match load json_file fs with
  | FileNotFound | JSONDecodeError => CleanupExit st
  | OtherError => CleanupUncaught st
  | Loaded json_data =>
      match extract_referenced_images json_data with
      | None => CleanupUncaught st
      | Some referenced_images =>
          match scan fs data_folder with
          | None => CleanupExit st
          | Some None => CleanupUncaught st
          | Some (Some _) =>
              remove_unused_images data_folder referenced_images dry_run
                                   response fs
          end
      end
  end.

End Cleanup.

(** The flat file system lists a folder by the keys that are the folder's
    string, a [/] and a name, and deletes what is not a directory. *)
Definition flat_iterdir (fs : flatfs) (folder_path : pystr)
  : option (list dir_entry) :=
  match fs !! pathlib.to_str folder_path with
  | Some Directory =>
      let prefix := pathlib.to_str folder_path ++ ["/"%char] in
      Some (omap
              (fun '(k, n) =>
                 let name := drop (length prefix) k in
                 if bool_decide (take (length prefix) k = prefix)
                    && negb (bool_decide (name = []))
                    && negb (Py.contains "/"%char name)
                 then Some (DirEntry name
                              match n with Directory => false | _ => true end)
                 else None)
              (map_to_list fs))
  | _ => None
  end.

Definition flat_unlink (path : pystr) (fs : flatfs) : option flatfs :=
  match fs !! path with
  | None | Some Directory => None
  | Some _ => Some (delete path fs)
  end.

Global Instance flatfs_folders : Folders flatfs := {|
  iterdir := flat_iterdir;
  unlink := flat_unlink
|}.

Module CleanupExamples.

Definition catalog : document :=
  [Examples.record "imgs/a.png"; Examples.record "pictures\c.jpeg"].

Definition fs : flatfs :=
  {[ str "catalog.json" := JsonFile catalog;
     str "imgs" := Directory;
     str "imgs/a.png" := Image;
     str "imgs/b.PNG" := Image;
     str "imgs/c.jpeg" := Image;
     str "imgs/old.gif" := Directory;
     str "imgs/notes.txt" := Image;
     str "imgs/d.webp" := Image ]}.

End CleanupExamples.

(** * Properties *)

(** ** Strings: searching and slicing *)

Section string_facts.

Implicit Types (c : ascii) (s a b : pystr).

Lemma rfind_ge c s : -1 <= Py.rfind c s.
Proof.
  induction s as [|x s IH]; simpl; [lia|].
  destruct (Z.leb_spec 0 (Py.rfind c s)); [lia|].
  case_bool_decide; lia.
Qed.

Lemma rfind_lt c s : Py.rfind c s < Z.of_nat (length s).
Proof.
  induction s as [|x s IH]; simpl; [lia|].
  destruct (Z.leb_spec 0 (Py.rfind c s)); [lia|].
  case_bool_decide; lia.
Qed.

Lemma rfind_not_in c s : Py.rfind c s = -1 <-> c ∉ s.
Proof.
  induction s as [|x s IH]; simpl.
  - split; [intros _; apply not_elem_of_nil | done].
  - rewrite not_elem_of_cons.
    destruct (Z.leb_spec 0 (Py.rfind c s)) as [Hr|Hr].
    + split; [lia|]. intros [_ Hs]. apply IH in Hs. lia.
    + assert (Py.rfind c s = -1) as Hs by (pose proof (rfind_ge c s); lia).
      apply IH in Hs.
      case_bool_decide; subst.
      * split; [lia|]. by intros [? _].
      * split; [by intros _ | done].
Qed.

Lemma rfind_app_last c a b :
  c ∉ b -> Py.rfind c (a ++ c :: b) = Z.of_nat (length a).
Proof.
  intros Hb. induction a as [|x a IH]; simpl.
  - apply rfind_not_in in Hb. rewrite Hb. simpl.
    by rewrite bool_decide_eq_true_2.
  - rewrite IH. destruct (Z.leb_spec 0 (Z.of_nat (length a))); lia.
Qed.

Lemma rfind_split c s :
  0 <= Py.rfind c s ->
  ∃ a b, s = a ++ c :: b ∧ (c ∉ b) ∧ Py.rfind c s = Z.of_nat (length a).
Proof.
  induction s as [|x s IH]; simpl; [lia|].
  destruct (Z.leb_spec 0 (Py.rfind c s)) as [Hr|Hr].
  - intros _. destruct (IH Hr) as (a & b & -> & Hb & Hlen).
    exists (x :: a), b. split; [done|]. split; [done|]. simpl. lia.
  - case_bool_decide; [|lia]. subst x. intros _.
    exists [], s. split; [done|]. split; [|done].
    apply rfind_not_in. pose proof (rfind_ge c s). lia.
Qed.

Lemma rfind_found c s : c ∈ s -> 0 <= Py.rfind c s.
Proof.
  intros Hin. pose proof (rfind_ge c s).
  destruct (decide (Py.rfind c s = -1)) as [Hr|]; [|lia].
  by apply rfind_not_in in Hr.
Qed.

Lemma bound_nonneg s i : 0 <= i -> Py.bound s i = Z.to_nat i.
Proof. intros. unfold Py.bound. destruct (Z.ltb_spec i 0); [lia|done]. Qed.

Lemma slice_to_app a b :
  Py.slice_to (Z.of_nat (length a)) (a ++ b) = a.
Proof.
  unfold Py.slice_to. rewrite bound_nonneg by lia.
  rewrite Nat2Z.id. by rewrite take_app_length.
Qed.

Lemma slice_from_app a b :
  Py.slice_from (Z.of_nat (length a)) (a ++ b) = b.
Proof.
  unfold Py.slice_from. rewrite bound_nonneg by lia.
  rewrite Nat2Z.id. by rewrite drop_app_length.
Qed.

Lemma slice_to_0 s : Py.slice_to 0 s = [].
Proof. done. Qed.

Lemma slice_from_0 s : Py.slice_from 0 s = s.
Proof. done. Qed.

(** The character at a position, as the one-character slice. *)
Lemma slice_one a x b :
  Py.slice (Z.of_nat (length a)) (Z.of_nat (length a) + 1) (a ++ x :: b) = [x].
Proof.
  unfold Py.slice. rewrite !bound_nonneg by lia.
  replace (Z.to_nat (Z.of_nat (length a) + 1)) with (length (a ++ [x]))
    by (rewrite length_app; simpl; lia).
  rewrite Nat2Z.id.
  rewrite (assoc_L (++) a [x] b : a ++ x :: b = (a ++ [x]) ++ b).
  rewrite take_app_length. by rewrite drop_app_length.
Qed.

End string_facts.

(** ** [posixpath]: base names and extensions *)

Section posixpath_facts.
Implicit Types (c : ascii) (s a b : pystr).

Lemma rfind_app_notin c a b : c ∉ b -> Py.rfind c (a ++ b) = Py.rfind c a.
Proof.
  intros Hb. induction a as [|x a IH]; simpl.
  - by apply rfind_not_in.
  - by rewrite IH.
Qed.

Lemma rfind_app_in c a b :
  c ∈ b -> Z.of_nat (length a) <= Py.rfind c (a ++ b).
Proof.
  intros Hb. induction a as [|x a IH]; simpl.
  - by apply rfind_found.
  - destruct (Z.leb_spec 0 (Py.rfind c (a ++ b))); lia.
Qed.

(** [basename]: the text after the last [/]. *)
Lemma basename_no_sep s : "/"%char ∉ s -> posixpath.basename s = s.
Proof.
  intros Hs. unfold posixpath.basename, posixpath.sep.
  apply rfind_not_in in Hs. by rewrite Hs.
Qed.

Lemma basename_app a b :
  "/"%char ∉ b -> posixpath.basename (a ++ "/"%char :: b) = b.
Proof.
  intros Hb. unfold posixpath.basename, posixpath.sep.
  rewrite rfind_app_last by done.
  replace (Z.of_nat (length a) + 1) with (Z.of_nat (length (a ++ ["/"%char])))
    by (rewrite length_app; simpl; lia).
  rewrite (assoc_L (++) a ["/"%char] b : a ++ "/"%char :: b = (a ++ ["/"%char]) ++ b).
  apply slice_from_app.
Qed.

Lemma basename_spec s :
  ∃ dir, s = dir ++ posixpath.basename s
         ∧ ("/"%char ∉ posixpath.basename s)
         ∧ (dir = [] ∨ ∃ d, dir = d ++ ["/"%char])
         ∧ Z.of_nat (length dir) = Py.rfind "/"%char s + 1.
Proof.
  destruct (decide (Py.rfind "/"%char s = -1)) as [Hr|Hr].
  - exists []. pose proof Hr as Hs. apply rfind_not_in in Hs.
    rewrite basename_no_sep by done. rewrite Hr. by eauto.
  - pose proof (rfind_ge "/"%char s).
    destruct (rfind_split "/"%char s) as (a & b & -> & Hb & Hlen); [lia|].
    exists (a ++ ["/"%char]). rewrite basename_app by done.
    split; [by rewrite <- (assoc_L (++))|]. split; [done|].
    split; [by eauto|]. rewrite Hlen, length_app. simpl. lia.
Qed.

Lemma basename_app_r a b :
  "/"%char ∉ b -> posixpath.basename (a ++ b) = posixpath.basename a ++ b.
Proof.
  intros Hb. destruct (basename_spec a) as (dir & Ha & Hn & Hdir & _).
  destruct Hdir as [->|[d ->]].
  - simpl in Ha. rewrite <- Ha. apply basename_no_sep.
    rewrite <- Ha in Hn. rewrite not_elem_of_app. done.
  - rewrite Ha at 1. rewrite <- !(assoc_L (++)). simpl.
    apply basename_app. rewrite not_elem_of_app. done.
Qed.

(** The loop of [_splitext] over the stretch [mid] of the path. *)
Lemma _splitext_loop_spec pre mid rest :
  posixpath._splitext_loop (length mid) (pre ++ mid ++ rest)
    (Z.of_nat (length pre)) (Z.of_nat (length pre) + Z.of_nat (length mid))
  = if bool_decide (Forall (fun x => x = "."%char) mid)
    then (pre ++ mid ++ rest, [])
    else (pre ++ mid, rest).
Proof.
  revert pre. induction mid as [|x mid IH]; intros pre; simpl.
  - done.
  - rewrite slice_one. unfold posixpath.extsep.
    destruct (decide (x = "."%char)) as [->|Hx].
    + rewrite (bool_decide_eq_true_2 (["."%char] = ["."%char])) by done. simpl negb. cbv iota.
      specialize (IH (pre ++ ["."%char])).
      rewrite length_app in IH. simpl length in IH.
      rewrite <- !(assoc_L (++)) in IH. simpl app in IH.
      replace (Z.of_nat (length pre) + 1) with (Z.of_nat (length pre + 1)) by lia.
      replace (Z.of_nat (length pre) + Z.of_nat (S (length mid)))
        with (Z.of_nat (length pre + 1) + Z.of_nat (length mid)) by lia.
      rewrite IH.
      destruct (decide (Forall (fun x => x = "."%char) mid)) as [Hm|Hm].
      * rewrite !bool_decide_eq_true_2; [done| by constructor | done].
      * rewrite !bool_decide_eq_false_2; [done| |done].
        intros Hall. by inversion Hall.
    + rewrite (bool_decide_eq_false_2 ([x] = ["."%char])) by congruence.
      simpl negb. cbv iota.
      rewrite bool_decide_eq_false_2
        by (intros Hall; by inversion Hall).
      replace (Z.of_nat (length pre) + Z.of_nat (S (length mid)))
        with (Z.of_nat (length (pre ++ x :: mid)))
        by (rewrite length_app; simpl; lia).
      change (pre ++ x :: mid ++ rest) with (pre ++ (x :: mid) ++ rest).
      rewrite (assoc_L (++) pre (x :: mid) rest).
      by rewrite slice_to_app, slice_from_app.
Qed.

Lemma splitext_no_dot s : "."%char ∉ s -> posixpath.splitext s = (s, []).
Proof.
  intros Hs. unfold posixpath.splitext, posixpath.extsep.
  apply rfind_not_in in Hs. rewrite Hs.
  pose proof (rfind_ge posixpath.sep s).
  destruct (Z.ltb_spec (Py.rfind posixpath.sep s) (-1)); [lia|done].
Qed.

Lemma splitext_dot a e :
  "."%char ∉ e ->
  posixpath.splitext (a ++ "."%char :: e)
  = if bool_decide (("/"%char ∉ e)
                    ∧ Exists (fun c => c ≠ "."%char) (posixpath.basename a))
    then (a, "."%char :: e)
    else (a ++ "."%char :: e, []).
Proof.
  intros He. unfold posixpath.splitext, posixpath.extsep, posixpath.sep.
  rewrite (rfind_app_last "."%char) by done.
  destruct (decide ("/"%char ∈ e)) as [Hsep|Hsep].
  - pose proof (rfind_app_in "/"%char (a ++ ["."%char]) e Hsep) as Hge.
    rewrite <- (assoc_L (++)), length_app in Hge. simpl in Hge.
    destruct (Z.ltb_spec (Py.rfind "/"%char (a ++ "."%char :: e))
                         (Z.of_nat (length a))); [lia|].
    rewrite bool_decide_eq_false_2; [done|]. by intros [? _].
  - rewrite (rfind_app_notin "/"%char a ("."%char :: e))
      by (rewrite not_elem_of_cons; done).
    pose proof (rfind_lt "/"%char a).
    destruct (Z.ltb_spec (Py.rfind "/"%char a) (Z.of_nat (length a))); [|lia].
    destruct (basename_spec a) as (dir & Ha & Hn & _ & Hlen).
    remember (posixpath.basename a) as mid eqn:Hmid. clear Hmid.
    rewrite <- Hlen. subst a.
    rewrite length_app, Nat2Z.inj_add.
    replace (Z.to_nat (Z.of_nat (length dir) + Z.of_nat (length mid)
                       - Z.of_nat (length dir))) with (length mid) by lia.
    rewrite <- (assoc_L (++)).
    rewrite _splitext_loop_spec.
    destruct (decide (Forall (fun x => x = "."%char) mid)) as [Hall|Hall].
    + rewrite bool_decide_eq_true_2 by done.
      rewrite bool_decide_eq_false_2; [done|].
      intros [_ Hex]. apply Exists_exists in Hex. destruct Hex as (c & Hc & Hne).
      rewrite Forall_forall in Hall. by apply Hne, Hall.
    + rewrite bool_decide_eq_false_2 by done.
      rewrite bool_decide_eq_true_2; [done|]. split; [done|].
      apply not_Forall_Exists in Hall; [done|intros ?; apply _].
Qed.

End posixpath_facts.

(** ** The file-name normaliser *)

Section normalize_filename_facts.
Implicit Types (c : ascii) (f s a b stem ext : pystr).

Lemma last_occurrence_unique c a b a' b' :
  a ++ c :: b = a' ++ c :: b' -> c ∉ b -> c ∉ b' -> a = a' ∧ b = b'.
Proof.
  intros Heq Hb Hb'.
  assert (length a = length a') as Hlen.
  { apply Nat2Z.inj. rewrite <- (rfind_app_last c a b) by done.
    rewrite Heq. by apply rfind_app_last. }
  apply app_inj_1 in Heq; [|done]. destruct Heq as [-> Heq].
  by simplify_eq.
Qed.

Lemma splitext_has_extension f stem ext :
  has_extension f stem ext -> posixpath.splitext f = (stem, ext).
Proof.
  intros (e & -> & -> & Hdot & Hsep & c & Hc & Hne).
  rewrite splitext_dot by done.
  rewrite bool_decide_eq_true_2; [done|]. split; [done|].
  apply Exists_exists. eauto.
Qed.

Lemma splitext_cases f :
  (∃ stem ext, has_extension f stem ext ∧ posixpath.splitext f = (stem, ext))
  ∨ ((∀ stem ext, ¬ has_extension f stem ext) ∧ posixpath.splitext f = (f, [])).
Proof.
  destruct (decide ("."%char ∈ f)) as [Hin|Hnot].
  - destruct (rfind_split "."%char f (rfind_found _ _ Hin))
      as (a & e & -> & He & _).
    rewrite splitext_dot by done. case_bool_decide as Hc.
    + left. exists a, ("."%char :: e). split; [|done].
      destruct Hc as [Hsep Hex]. apply Exists_exists in Hex.
      destruct Hex as (c & ? & ?). exists e. eauto 10.
    + right. split; [|done].
      intros stem ext (e' & Heq & -> & He' & Hsep & c & Hin' & Hne).
      apply last_occurrence_unique in Heq; [|done..].
      destruct Heq as [-> ->]. apply Hc. split; [done|].
      apply Exists_exists. eauto.
  - right. split; [|by apply splitext_no_dot].
    intros stem ext (e & -> & -> & _). apply Hnot.
    rewrite elem_of_app, elem_of_cons. auto.
Qed.

Lemma splitext_concat f :
  (posixpath.splitext f).1 ++ (posixpath.splitext f).2 = f.
Proof.
  destruct (splitext_cases f) as [(stem & ext & Hext & ->)|[_ ->]]; simpl.
  - by destruct Hext as (e & -> & _).
  - by rewrite app_nil_r.
Qed.

(** The guard on the empty name does not change the result. *)
Lemma normalize_filename_unfold f :
  normalize_filename f
  = let stem := (posixpath.splitext f).1 in
    let ext := (posixpath.splitext f).2 in
    if Py.rfind "_"%char stem =? -1 then f
    else Py.slice_to (Py.rfind "_"%char stem) stem ++ ext.
Proof.
  unfold normalize_filename. case_bool_decide as Hf.
  - subst f. done.
  - by destruct (posixpath.splitext f).
Qed.

Lemma normalize_filename_no_underscore f :
  "_"%char ∉ (posixpath.splitext f).1 -> normalize_filename f = f.
Proof.
  intros Hs. rewrite normalize_filename_unfold. simpl.
  apply rfind_not_in in Hs. by rewrite Hs.
Qed.

Lemma normalize_filename_underscore f pre post :
  (posixpath.splitext f).1 = pre ++ "_"%char :: post -> "_"%char ∉ post ->
  normalize_filename f = pre ++ (posixpath.splitext f).2.
Proof.
  intros Hs Hpost. rewrite normalize_filename_unfold. simpl.
  rewrite Hs, rfind_app_last by done.
  destruct (Z.eqb_spec (Z.of_nat (length pre)) (-1)); [lia|].
  by rewrite slice_to_app.
Qed.

(** Either the name is returned as it is, or the stem is cut at its last
    underscore. *)
Lemma normalize_filename_cases f :
  (("_"%char ∉ (posixpath.splitext f).1) ∧ normalize_filename f = f)
  ∨ (∃ pre post, (posixpath.splitext f).1 = pre ++ "_"%char :: post
                 ∧ ("_"%char ∉ post)
                 ∧ normalize_filename f = pre ++ (posixpath.splitext f).2).
Proof.
  destruct (decide ("_"%char ∈ (posixpath.splitext f).1)) as [Hin|Hnot].
  - right.
    destruct (rfind_split "_"%char _ (rfind_found _ _ Hin))
      as (pre & post & Hs & Hpost & _).
    exists pre, post. split; [done|]. split; [done|].
    by apply normalize_filename_underscore with post.
  - left. split; [done|]. by apply normalize_filename_no_underscore.
Qed.

Lemma spec_normalize_agrees f :
  ("."%char ∉ f) ∨ (∃ stem ext, has_extension f stem ext) ->
  normalize_filename f = Spec.normalize f.
Proof.
  intros Hf. rewrite normalize_filename_unfold.
  unfold Spec.normalize, Spec.split_at_last_dot.
  destruct Hf as [Hdot|(stem & ext & Hext)].
  - rewrite splitext_no_dot by done. simpl.
    apply rfind_not_in in Hdot. rewrite Hdot. simpl.
    pose proof (rfind_ge "_"%char f).
    destruct (Z.eqb_spec (Py.rfind "_"%char f) (-1)) as [->|]; [done|].
    destruct (Z.ltb_spec (Py.rfind "_"%char f) 0); [lia|done].
  - rewrite (splitext_has_extension _ _ _ Hext). simpl.
    destruct Hext as (e & -> & -> & He & _).
    rewrite rfind_app_last by done.
    destruct (Z.ltb_spec (Z.of_nat (length stem)) 0); [lia|].
    rewrite slice_to_app, slice_from_app.
    pose proof (rfind_ge "_"%char stem).
    destruct (Z.eqb_spec (Py.rfind "_"%char stem) (-1)) as [->|]; [done|].
    destruct (Z.ltb_spec (Py.rfind "_"%char stem) 0); [lia|done].
Qed.

End normalize_filename_facts.

(** ** Splitting and joining paths *)

Section path_facts.
Implicit Types (c sep : ascii) (p q s a b d dir fn : pystr) (l : list pystr).

Lemma replace_app x y a b :
  Py.replace x y (a ++ b) = Py.replace x y a ++ Py.replace x y b.
Proof. apply fmap_app. Qed.

Lemma replace_length x y s : length (Py.replace x y s) = length s.
Proof. apply length_fmap. Qed.

Lemma replace_not_in x y s : x ∉ s -> Py.replace x y s = s.
Proof.
  induction s as [|c s IH]; [done|]. rewrite not_elem_of_cons. intros [? ?].
  simpl. rewrite bool_decide_eq_false_2 by congruence. f_equal. by apply IH.
Qed.

Lemma elem_of_replace c x y s :
  c ∈ Py.replace x y s <-> (c = y ∧ x ∈ s) ∨ (c ≠ x ∧ c ∈ s).
Proof.
  unfold Py.replace. rewrite list_elem_of_fmap. split.
  - intros (z & -> & Hz). case_bool_decide; subst; auto.
  - intros [[-> Hx]|[Hne Hc]].
    + exists x. by rewrite bool_decide_eq_true_2.
    + exists c. by rewrite bool_decide_eq_false_2.
Qed.

Lemma replace_replace_back x y s :
  Py.replace x y (Py.replace y x s) = Py.replace x y s.
Proof.
  unfold Py.replace. rewrite <- list_fmap_compose. apply list_fmap_ext.
  intros _ c _. simpl. repeat case_bool_decide; congruence.
Qed.

Lemma split_not_nil sep s : Py.split sep s ≠ [].
Proof.
  destruct s as [|c s]; [done|]. simpl.
  case_bool_decide; [done|]. by destruct (Py.split sep s).
Qed.

Lemma split_no_sep sep s : sep ∉ s -> Py.split sep s = [s].
Proof.
  induction s as [|c s IH]; [done|]. rewrite not_elem_of_cons. intros [? Hs].
  simpl. rewrite bool_decide_eq_false_2 by congruence. by rewrite IH.
Qed.

Lemma split_app sep a b :
  sep ∉ b -> Py.split sep (a ++ sep :: b) = Py.split sep a ++ [b].
Proof.
  intros Hb. induction a as [|c a IH]; simpl.
  - rewrite bool_decide_eq_true_2 by done. by rewrite split_no_sep.
  - rewrite IH. case_bool_decide; [done|].
    pose proof (split_not_nil sep a). by destruct (Py.split sep a).
Qed.

Lemma join_snoc (glue : pystr) l (x : pystr) :
  l ≠ [] -> Py.join glue (l ++ [x]) = Py.join glue l ++ glue ++ x.
Proof.
  induction l as [|y l IH]; [done|]. intros _.
  destruct l as [|z l]; [done|].
  change (Py.join glue ((y :: z :: l) ++ [x]))
    with (y ++ glue ++ Py.join glue ((z :: l) ++ [x])).
  rewrite IH by done.
  change (Py.join glue (y :: z :: l)) with (y ++ glue ++ Py.join glue (z :: l)).
  by rewrite <- !(assoc_L (++)).
Qed.

Lemma join_split sep s : Py.join [sep] (Py.split sep s) = s.
Proof.
  induction s as [|c s IH]; [done|]. simpl.
  pose proof (split_not_nil sep s) as Hne.
  case_bool_decide as Hc.
  - subst c. destruct (Py.split sep s) as [|y l] eqn:Hs; [done|].
    change (Py.join [sep] ([] :: y :: l)) with (sep :: Py.join [sep] (y :: l)).
    by rewrite IH.
  - destruct (Py.split sep s) as [|y l] eqn:Hs; [done|].
    destruct l as [|z l]; simpl in *; by rewrite <- IH.
Qed.

Lemma last_part_snoc l (x : pystr) : Py.last_part (l ++ [x]) = x.
Proof. apply last_last. Qed.

Lemma set_last_part_snoc l (x y : pystr) : Py.set_last_part y (l ++ [x]) = l ++ [y].
Proof.
  unfold Py.set_last_part. rewrite removelast_last.
  by destruct l.
Qed.

(** A path is a directory prefix, empty or ending in [/], and the text
    after it; splitting at [/] puts that text last. *)
Lemma split_dir_file dir :
  dir = [] ∨ (∃ d, dir = d ++ ["/"%char]) ->
  ∃ l, ∀ x, ("/"%char ∉ x -> Py.split "/"%char (dir ++ x) = l ++ [x])
            ∧ Py.join ["/"%char] (l ++ [x]) = dir ++ x.
Proof.
  intros [->|[d ->]].
  - exists []. intros x. split; [by apply split_no_sep|done].
  - exists (Py.split "/"%char d). intros x. rewrite <- (assoc_L (++)). simpl.
    split; [by apply split_app|].
    rewrite join_snoc by apply split_not_nil.
    by rewrite join_split.
Qed.

(** The characters of a normalised name are characters of the name. *)
Lemma elem_of_normalize_filename c f :
  c ∈ normalize_filename f -> c ∈ f.
Proof.
  rewrite <- (splitext_concat f) at 2.
  destruct (normalize_filename_cases f) as [[_ ->]|(pre & post & Hs & _ & ->)].
  - by rewrite splitext_concat.
  - rewrite Hs, !elem_of_app, elem_of_cons. tauto.
Qed.

(** The file name of an [image_url] is what follows its last separator of
    either kind. *)
Lemma url_filename_spec p :
  p = url_dir p ++ url_filename p
  ∧ ("/"%char ∉ url_filename p) ∧ ("\"%char ∉ url_filename p)
  ∧ (url_dir p = []
     ∨ ∃ d c, url_dir p = d ++ [c] ∧ (c = "/"%char ∨ c = "\"%char))
  ∧ (Py.replace "\"%char "/"%char (url_dir p) = []
     ∨ ∃ d, Py.replace "\"%char "/"%char (url_dir p) = d ++ ["/"%char])
  ∧ Py.replace "\"%char "/"%char p
    = Py.replace "\"%char "/"%char (url_dir p) ++ url_filename p.
Proof.
  unfold url_dir, url_filename.
  destruct (basename_spec (Py.replace "\"%char "/"%char p))
    as (dirq & Hq & Hfn & Hdir & _).
  remember (posixpath.basename (Py.replace "\"%char "/"%char p)) as fnq eqn:E.
  clear E.
  assert (length p - length fnq = length dirq)%nat as ->.
  { rewrite <- (replace_length "\"%char "/"%char p), Hq, length_app. lia. }
  assert (Py.replace "\"%char "/"%char (take (length dirq) p) = dirq
          ∧ Py.replace "\"%char "/"%char (drop (length dirq) p) = fnq)
    as [Hd Hf].
  { unfold Py.replace in *. rewrite fmap_take, fmap_drop.
    rewrite Hq. by rewrite take_app_length, drop_app_length. }
  assert (("/"%char ∉ drop (length dirq) p) ∧ ("\"%char ∉ drop (length dirq) p))
    as [Hn1 Hn2].
  { rewrite <- Hf in Hfn. rewrite elem_of_replace in Hfn. split.
    - intros Hin. apply Hfn. right. done.
    - intros Hin. apply Hfn. left. done. }
  rewrite (replace_not_in _ _ _ Hn2) in Hf. subst fnq.
  split; [by rewrite take_drop|]. split; [done|]. split; [done|].
  rewrite Hd. split; [|split; [|done]].
  - destruct Hdir as [Hnil|[d ->]].
    + left. rewrite Hnil. done.
    + right. rewrite length_app. simpl.
      assert (length d + 1 <= length p)%nat as Hle.
      { rewrite <- (replace_length "\"%char "/"%char p), Hq.
        rewrite !length_app. simpl. lia. }
      destruct (lookup_lt_is_Some_2 p (length d)) as [c Hc]; [lia|].
      exists (take (length d) p), c.
      split.
      * replace (length d + 1)%nat with (S (length d)) by lia.
        by apply take_S_r.
      * assert (Py.replace "\"%char "/"%char p !! length d = Some "/"%char)
          as Hl.
        { rewrite Hq. rewrite <- (assoc_L (++)).
          by apply list_lookup_middle. }
        unfold Py.replace in Hl. rewrite list_lookup_fmap, Hc in Hl.
        simpl in Hl. case_bool_decide; simplify_eq; auto.
  - destruct Hdir as [->|[d ->]]; eauto.
Qed.

End path_facts.

(** ** Rewriting an [image_url] *)

Section normalize_image_path_facts.
Implicit Types (p : pystr).

Lemma normalize_filename_nil : normalize_filename [] = [].
Proof. done. Qed.

Lemma normalize_filename_no_seps p :
  ("/"%char ∉ normalize_filename (url_filename p))
  ∧ ("\"%char ∉ normalize_filename (url_filename p)).
Proof.
  destruct (url_filename_spec p) as (_ & H1 & H2 & _).
  split; intros Hin; apply elem_of_normalize_filename in Hin; done.
Qed.

Lemma normalize_image_path_eq p :
  normalize_image_path p
  = (if Py.contains "\"%char p
     then Py.replace "/"%char "\"%char (url_dir p) else url_dir p)
    ++ normalize_filename (url_filename p).
Proof.
  unfold normalize_image_path. case_bool_decide as Hp.
  - subst p. done.
  - destruct (url_filename_spec p) as (Hsplit & Hn1 & Hn2 & _ & Hdir & Hq).
    destruct (normalize_filename_no_seps p) as [Hm1 Hm2].
    destruct (split_dir_file _ Hdir) as (l & Hl).
    rewrite Hq.
    rewrite (proj1 (Hl (url_filename p)) Hn1).
    rewrite last_part_snoc, set_last_part_snoc.
    rewrite (proj2 (Hl _)).
    unfold Py.contains. case_bool_decide as Hb.
    + rewrite replace_app, replace_replace_back.
      by rewrite (replace_not_in _ _ _ Hm1).
    + rewrite replace_not_in; [done|].
      intros Hin. apply Hb. rewrite Hsplit, elem_of_app. auto.
Qed.

(** Split on both separators, the rewritten path has the segments of the
    original, the last one normalised. *)
Lemma components_normalize_image_path p :
  Spec.components (normalize_image_path p)
  = Py.set_last_part (normalize_filename (url_filename p)) (Spec.components p).
Proof.
  unfold Spec.components.
  destruct (url_filename_spec p) as (Hsplit & Hn1 & Hn2 & _ & Hdir & Hq).
  destruct (normalize_filename_no_seps p) as [Hm1 Hm2].
  destruct (split_dir_file _ Hdir) as (l & Hl).
  rewrite Hq, (proj1 (Hl _) Hn1), set_last_part_snoc.
  rewrite normalize_image_path_eq, replace_app.
  rewrite (replace_not_in _ _ _ Hm2).
  assert (Py.replace "\"%char "/"%char
            (if Py.contains "\"%char p
             then Py.replace "/"%char "\"%char (url_dir p) else url_dir p)
          = Py.replace "\"%char "/"%char (url_dir p)) as ->.
  { destruct (Py.contains "\"%char p); [|done]. apply replace_replace_back. }
  by apply Hl.
Qed.

Lemma filename_start_eq p :
  Spec.filename_start p = Z.of_nat (length (url_dir p)).
Proof.
  unfold Spec.filename_start.
  destruct (url_filename_spec p) as (Hsplit & Hn1 & Hn2 & Hdir & _).
  rewrite Hsplit at 1 2. rewrite !rfind_app_notin by done.
  destruct Hdir as [->|(d & c & -> & Hc)]; [done|].
  rewrite length_app. simpl.
  pose proof (rfind_lt "/"%char (d ++ [c])) as H1.
  pose proof (rfind_lt "\"%char (d ++ [c])) as H2.
  rewrite length_app in H1, H2. simpl in H1, H2.
  destruct Hc as [->| ->].
  - rewrite (rfind_app_last "/"%char d []) in * by apply not_elem_of_nil. lia.
  - rewrite (rfind_app_last "\"%char d []) in * by apply not_elem_of_nil. lia.
Qed.

Lemma rewrite_path_eq p :
  Spec.rewrite_path p = url_dir p ++ normalize_filename (url_filename p).
Proof.
  unfold Spec.rewrite_path. rewrite filename_start_eq.
  destruct (url_filename_spec p) as (Hsplit & _).
  rewrite Hsplit at 2 4. by rewrite slice_to_app, slice_from_app.
Qed.

Lemma normalize_image_path_one_style p :
  ("\"%char ∉ p) ∨ ("/"%char ∉ p) ->
  normalize_image_path p = Spec.rewrite_path p.
Proof.
  intros Hp. rewrite normalize_image_path_eq, rewrite_path_eq.
  unfold Py.contains. case_bool_decide as Hb; [|done].
  destruct Hp as [Hp|Hp]; [done|].
  rewrite replace_not_in; [done|].
  destruct (url_filename_spec p) as (Hsplit & _).
  intros Hin. apply Hp. rewrite Hsplit, elem_of_app. auto.
Qed.

Lemma normalize_image_path_backslashes p :
  "\"%char ∈ p -> "/"%char ∉ normalize_image_path p.
Proof.
  intros Hp. rewrite normalize_image_path_eq.
  unfold Py.contains. rewrite bool_decide_eq_true_2 by done.
  rewrite not_elem_of_app. split.
  - rewrite elem_of_replace. intros [[? _]|[? _]]; done.
  - apply normalize_filename_no_seps.
Qed.

(** The file name of the rewritten path is the normalised file name. *)
Lemma url_filename_normalize_image_path p :
  url_filename (normalize_image_path p) = normalize_filename (url_filename p).
Proof.
  unfold url_filename at 1.
  change (Py.replace "\"%char "/"%char (normalize_image_path p))
    with (Py.join ["/"%char] [Py.replace "\"%char "/"%char (normalize_image_path p)]).
  pose proof (components_normalize_image_path p) as Hc.
  unfold Spec.components in Hc.
  destruct (url_filename_spec p) as (_ & Hn1 & _ & _ & Hdir & Hq).
  destruct (split_dir_file _ Hdir) as (l & Hl).
  rewrite Hq, (proj1 (Hl _) Hn1), set_last_part_snoc in Hc.
  simpl Py.join.
  rewrite <- (join_split "/"%char (Py.replace "\"%char "/"%char (normalize_image_path p))).
  rewrite Hc, (proj2 (Hl _)).
  destruct (normalize_filename_no_seps p) as [Hm1 _].
  destruct Hdir as [->|[d ->]].
  - by apply basename_no_sep.
  - rewrite <- (assoc_L (++)). by apply basename_app.
Qed.

End normalize_image_path_facts.

(** ** Paths of [pathlib] *)

Section pathlib_facts.
Implicit Types (n folder x rel root : pystr) (tail : list pystr).

Local Ltac root_cases :=
  repeat (case_bool_decide; simplify_eq; cbn;
          change (Z.to_nat 0) with 0%nat in *;
          change (Z.to_nat 1) with 1%nat in *;
          change (Z.to_nat 2) with 2%nat in *;
          change (Z.to_nat 3) with 3%nat in *; cbn in *; simplify_eq); auto.

Lemma splitroot_root p :
  (posixpath.splitroot p).1 = [] ∨ (posixpath.splitroot p).1 = ["/"%char]
  ∨ (posixpath.splitroot p).1 = ["/"%char; "/"%char].
Proof.
  unfold posixpath.splitroot, posixpath.sep.
  destruct p as [|c1 [|c2 [|c3 p]]]; cbn; root_cases.
Qed.

Lemma splitroot_concat p :
  (posixpath.splitroot p).1 ++ (posixpath.splitroot p).2 = p.
Proof.
  unfold posixpath.splitroot, posixpath.sep.
  destruct p as [|c1 [|c2 [|c3 p]]]; cbn; root_cases.
Qed.

Lemma splitroot_app p x :
  p ≠ [] ->
  (List.last p "x"%char = "/"%char -> take 1 x ≠ ["/"%char]) ->
  posixpath.splitroot (p ++ x)
  = ((posixpath.splitroot p).1, (posixpath.splitroot p).2 ++ x).
Proof.
  unfold posixpath.splitroot, posixpath.sep. intros Hp Hx.
  destruct p as [|c1 [|c2 [|c3 p]]]; [done|..]; cbn in *.
  - destruct x as [|y x]; cbn; root_cases.
    exfalso. by apply Hx.
  - destruct x as [|y x]; cbn; root_cases.
    exfalso. by apply Hx.
  - root_cases.
Qed.

Lemma splitroot_relative p :
  take 1 p ≠ ["/"%char] -> posixpath.splitroot p = ([], p).
Proof.
  unfold posixpath.splitroot, posixpath.sep. intros Hp.
  destruct p as [|c p]; [done|]. cbn in *. root_cases.
Qed.

Lemma filter_kept_snoc_nil (l : list pystr) :
  filter (fun x => x ≠ [] ∧ x ≠ [posixpath.extsep]) (l ++ [[]])
  = filter (fun x => x ≠ [] ∧ x ≠ [posixpath.extsep]) l.
Proof.
  rewrite filter_app. rewrite (filter_cons_False _ []) by (by intros [? _]).
  rewrite filter_nil. apply app_nil_r.
Qed.

(** Appending a name to a folder appends it to the parsed components,
    unless the name is empty or a single dot. *)
Lemma parse_path_truediv folder n :
  "/"%char ∉ n ->
  pathlib._parse_path (pathlib.truediv folder n)
  = ((pathlib._parse_path folder).1,
     (pathlib._parse_path folder).2
     ++ filter (fun x => x ≠ [] ∧ x ≠ [posixpath.extsep]) [n]).
Proof.
  intros Hn. unfold pathlib.truediv, posixpath.join, posixpath.sep.
  assert (take 1 n ≠ ["/"%char]) as Hn1.
  { destruct n as [|c n]; [done|]. simpl. rewrite take_0.
    intros [= ->]. apply Hn. by left. }
  rewrite bool_decide_eq_false_2 by done.
  unfold pathlib._parse_path.
  destruct (decide (folder = [])) as [->|Hf].
  - rewrite !(bool_decide_eq_true_2 (@nil ascii = [])) by done.
    cbn [orb app fst snd].
    case_bool_decide as Hn0.
    + subst n. by rewrite filter_cons_False by (by intros [? _]).
    + by rewrite splitroot_relative, split_no_sep.
  - rewrite (bool_decide_eq_false_2 (folder = [])) by done. cbn [orb].
    pose proof (splitroot_concat folder) as Hcat.
    destruct (decide (List.last folder "x"%char = "/"%char)) as [Hlast|Hlast];
      [rewrite (bool_decide_eq_true_2 _ Hlast)
      |rewrite (bool_decide_eq_false_2 _ Hlast)].
    + rewrite bool_decide_eq_false_2 by (by destruct folder).
      rewrite splitroot_app by done.
      destruct (posixpath.splitroot folder) as [root rel] eqn:Hsr. simpl in *.
      f_equal.
      assert (rel = [] ∨ ∃ d, rel = d ++ ["/"%char]) as [->|[d ->]].
      { destruct rel as [|c rel _] using rev_ind; [by left|right].
        exists rel. rewrite <- Hcat, (assoc_L (++)), last_last in Hlast.
        by subst c. }
      * simpl. by rewrite split_no_sep.
      * rewrite <- (assoc_L (++)). simpl.
        rewrite split_app by done.
        rewrite (split_app _ d []) by apply not_elem_of_nil.
        by rewrite filter_app, filter_kept_snoc_nil.
    + rewrite bool_decide_eq_false_2 by (by destruct folder).
      rewrite splitroot_app by done.
      destruct (posixpath.splitroot folder) as [root rel] eqn:Hsr. simpl in *.
      f_equal. rewrite split_app by done. by rewrite filter_app.
Qed.

Lemma parse_path_root folder :
  (pathlib._parse_path folder).1 = [] ∨ (pathlib._parse_path folder).1 = ["/"%char]
  ∨ (pathlib._parse_path folder).1 = ["/"%char; "/"%char].
Proof.
  unfold pathlib._parse_path. case_bool_decide; [by left|].
  pose proof (splitroot_root folder).
  by destruct (posixpath.splitroot folder).
Qed.

Lemma parse_path_tail_kept folder x :
  x ∈ (pathlib._parse_path folder).2 -> x ≠ [].
Proof.
  unfold pathlib._parse_path. case_bool_decide; [by rewrite elem_of_nil|].
  destruct (posixpath.splitroot folder). simpl.
  rewrite list_elem_of_filter. by intros [[? _] _].
Qed.

Lemma join_nil_inv (glue : pystr) (l : list pystr) :
  (∀ x, x ∈ l -> x ≠ []) -> Py.join glue l = [] -> l = [].
Proof.
  destruct l as [|y l]; [done|]. intros Hl Hj. exfalso.
  apply (Hl y); [by left|].
  destruct l; simpl in Hj; [done|]. by apply app_eq_nil in Hj as [? _].
Qed.

(** The string of [folder / n] for a name that is kept: the name comes
    last, after nothing or after a [/]. *)
Lemma to_str_truediv folder n :
  "/"%char ∉ n -> n ≠ [] -> n ≠ ["."%char] ->
  ∃ pre, pathlib.to_str (pathlib.truediv folder n) = pre ++ n
         ∧ (pre = [] ∨ ∃ d, pre = d ++ ["/"%char])
         ∧ (pathlib.to_str folder = ["."%char]
            ∨ (length (pathlib.to_str folder) < length (pre ++ n))%nat).
Proof.
  intros Hn Hn0 Hn1. unfold pathlib.to_str.
  rewrite parse_path_truediv by done.
  rewrite filter_cons_True by done. rewrite filter_nil.
  pose proof (parse_path_root folder) as Hroot.
  pose proof (parse_path_tail_kept folder) as Hkept.
  destruct (pathlib._parse_path folder) as [root tail]. simpl in *.
  unfold posixpath.sep, posixpath.extsep.
  destruct (decide (tail = [])) as [->|Htail].
  - exists root. simpl. rewrite app_nil_r.
    rewrite (bool_decide_eq_false_2 (root ++ n = [])); last first.
    { intros Heq. by apply app_eq_nil in Heq as [_ ?]. }
    split; [done|]. split.
    + destruct Hroot as [->|[->| ->]]; [by left|right; by exists []|].
      right. by exists ["/"%char].
    + case_bool_decide; [by left|right].
      rewrite length_app. destruct n; [done|simpl; lia].
  - exists (root ++ Py.join ["/"%char] tail ++ ["/"%char]).
    rewrite join_snoc by done.
    rewrite (bool_decide_eq_false_2 (root ++ _ ++ _ ++ n = [])); last first.
    { intros Heq. apply app_eq_nil in Heq as [_ Heq].
      apply app_eq_nil in Heq as [_ Heq]. done. }
    split; [by rewrite <- !(assoc_L (++))|]. split.
    + right. exists (root ++ Py.join ["/"%char] tail).
      by rewrite <- !(assoc_L (++)).
    + case_bool_decide; [by left|right].
      rewrite !length_app. simpl. lia.
Qed.

(** For a name that is not kept, [folder / n] is the folder. *)
Lemma to_str_truediv_dropped folder n :
  n = [] ∨ n = ["."%char] ->
  pathlib.to_str (pathlib.truediv folder n) = pathlib.to_str folder.
Proof.
  intros Hn. unfold pathlib.to_str.
  rewrite parse_path_truediv
    by (destruct Hn as [->| ->]; [apply not_elem_of_nil|];
        rewrite list_elem_of_singleton; done).
  rewrite filter_cons_False; last first.
  { unfold posixpath.extsep. intros [? ?]. by destruct Hn. }
  rewrite filter_nil, app_nil_r.
  by destruct (pathlib._parse_path folder).
Qed.

Lemma basename_to_str_truediv folder n :
  "/"%char ∉ n -> n ≠ [] -> n ≠ ["."%char] ->
  posixpath.basename (pathlib.to_str (pathlib.truediv folder n)) = n.
Proof.
  intros Hn Hn0 Hn1.
  destruct (to_str_truediv folder n) as (pre & -> & [->|[d ->]] & _);
    [done..| |].
  - by apply basename_no_sep.
  - rewrite <- (assoc_L (++)). by apply basename_app.
Qed.

Lemma to_str_truediv_ne folder n :
  "/"%char ∉ n -> n ≠ [] -> n ≠ ["."%char] ->
  pathlib.to_str (pathlib.truediv folder n) ≠ pathlib.to_str folder.
Proof.
  intros Hn Hn0 Hn1 Heq.
  destruct (to_str_truediv folder n) as (pre & Hs & Hpre & [Hdot|Hlt]);
    [done..| |].
  - rewrite Hs, Hdot in Heq.
    destruct Hpre as [->|[d ->]]; [done|].
    rewrite <- (assoc_L (++)) in Heq.
    apply (f_equal (fun s => bool_decide ("/"%char ∈ s))) in Heq.
    rewrite bool_decide_eq_true_2 in Heq
      by (rewrite !elem_of_app, list_elem_of_singleton; auto).
    rewrite bool_decide_eq_false_2 in Heq; [done|].
    rewrite list_elem_of_singleton. done.
  - rewrite <- Hs, Heq in Hlt. lia.
Qed.

End pathlib_facts.

(** ** The planner *)

Section planner_facts.
Context {FS : Type} `{!OS FS}.
Implicit Types (fs : FS) (folder : pystr) (doc : document) (o : operation)
         (ops : list operation) (it : item).

Lemma plan_item_Some fs folder idx it o :
  plan_item fs folder idx it = Some (Some o) ->
  op_idx o = idx
  ∧ ∃ u, it !! image_url = Some (VStr u)
    ∧ u ≠ []
    ∧ url_filename u ≠ normalize_filename (url_filename u)
    ∧ op_old o = pathlib.to_str (pathlib.truediv folder (url_filename u))
    ∧ op_new o = pathlib.to_str
                   (pathlib.truediv folder (normalize_filename (url_filename u)))
    ∧ exists_ fs (op_old o) = true
    ∧ (exists_ fs (op_new o) = false ∨ op_new o = op_old o).
Proof.
  unfold plan_item, pathlib.eqb. fold (url_filename).
  destruct (it !! image_url) as [[u|b]|] eqn:Hit; simpl; [| |done].
  - fold (url_filename u).
    case_bool_decide as Hu; simpl; [done|].
    case_bool_decide as Hfn; [done|].
    destruct (exists_ fs (pathlib.to_str (pathlib.truediv folder (url_filename u))))
      eqn:Hold; simpl; [|done].
    destruct (exists_ fs (pathlib.to_str
                (pathlib.truediv folder (normalize_filename (url_filename u)))))
      eqn:Hnew; simpl.
    + case_bool_decide as Heq; simpl; [|done].
      intros [= <-]. split; [done|]. exists u. unfold op_old, op_new. simpl.
      auto 10.
    + intros [= <-]. split; [done|]. exists u. unfold op_old, op_new. simpl.
      auto 10.
  - by destruct b.
Qed.

Lemma plan_from_sound fs folder doc : ∀ i ops,
  plan_from fs folder i doc = Some ops ->
  Forall (fun o => (i <= op_idx o)%nat
                   ∧ ∃ it, doc !! (op_idx o - i)%nat = Some it
                           ∧ plan_item fs folder (op_idx o) it = Some (Some o))
         ops
  ∧ NoDup (op_idx <$> ops).
Proof.
  induction doc as [|it doc IH]; intros i ops; simpl.
  - intros [= <-]. split; constructor.
  - destruct (plan_item fs folder i it) as [o|] eqn:Hit; [|done].
    destruct (plan_from fs folder (S i) doc) as [ops'|] eqn:Hrest; [|done].
    intros [= <-]. destruct (IH _ _ Hrest) as [Hall Hnd].
    assert (Forall (fun o => (i <= op_idx o)%nat
                   ∧ ∃ it', (it :: doc) !! (op_idx o - i)%nat = Some it'
                           ∧ plan_item fs folder (op_idx o) it' = Some (Some o))
                   ops') as Hall'.
    { eapply Forall_impl; [exact Hall|]. intros o' (Hle & it' & Hl & Hp).
      split; [lia|]. exists it'. split; [|done].
      replace (op_idx o' - i)%nat with (S (op_idx o' - S i)) by lia. done. }
    destruct o as [o|]; simpl; [|done].
    pose proof (plan_item_Some _ _ _ _ _ Hit) as [Hidx _].
    split.
    + constructor; [|done]. split; [lia|]. exists it.
      rewrite Hidx, Nat.sub_diag. done.
    + constructor; [|done]. rewrite list_elem_of_fmap.
      intros (o' & Heq & Hin). rewrite Forall_forall in Hall.
      destruct (Hall o' Hin) as [Hle _]. lia.
Qed.

Lemma get_file_operations_sound doc folder fs ops :
  get_file_operations doc folder fs = Some ops ->
  Forall (planned fs folder doc) ops ∧ NoDup (op_idx <$> ops).
Proof.
  intros Hplan. apply plan_from_sound in Hplan as [Hall Hnd].
  split; [|done]. eapply Forall_impl; [exact Hall|].
  intros o (_ & it & Hl & Hp). rewrite Nat.sub_0_r in Hl.
  apply plan_item_Some in Hp as (_ & u & ?). exists it, u. tauto.
Qed.

Lemma plan_item_total fs folder idx it :
  (∀ b, it !! image_url = Some (VOther b) -> b = false) ->
  is_Some (plan_item fs folder idx it).
Proof.
  intros Hit. unfold plan_item.
  destruct (it !! image_url) as [[u|b]|]; simpl; [| |by eauto].
  - repeat (case_match; eauto).
  - rewrite (Hit b eq_refl). simpl. by eauto.
Qed.

Lemma get_file_operations_total doc folder fs :
  well_typed doc -> is_Some (get_file_operations doc folder fs).
Proof.
  unfold get_file_operations. generalize 0%nat.
  induction doc as [|it doc IH]; intros i Hwt; simpl; [by eauto|].
  destruct (plan_item_total fs folder i it) as [o ->].
  { intros b. apply Hwt. by left. }
  destruct (IH (S i)) as [ops ->]; [|by eauto].
  intros it' b Hin. apply Hwt. by right.
Qed.

End planner_facts.

(** ** The executor *)

Section executor_facts.
Context {FS : Type} `{!OS FS}.
Implicit Types (fs : FS) (doc : document) (o : operation)
         (ops : list operation) (it : item) (st : state FS).

Lemma patch_record_other json_idx doc doc' i :
  patch_record json_idx doc = Some doc' -> i ≠ json_idx -> doc' !! i = doc !! i.
Proof.
  unfold patch_record. intros Hp Hne.
  repeat case_match; simplify_eq; by rewrite list_lookup_insert_ne.
Qed.

Lemma patch_record_length json_idx doc doc' :
  patch_record json_idx doc = Some doc' -> length doc' = length doc.
Proof.
  unfold patch_record. intros Hp.
  repeat case_match; simplify_eq; by rewrite length_insert.
Qed.

Lemma patch_record_str json_idx doc it u :
  doc !! json_idx = Some it -> it !! image_url = Some (VStr u) ->
  patch_record json_idx doc
  = Some (<[json_idx := <[image_url := VStr (normalize_image_path u)]> it]> doc).
Proof. unfold patch_record. by intros -> ->. Qed.

(** One round: the rename is called, and the document changes only when
    it succeeded, and only at the record of the operation. *)
Lemma run_operation_calls st o :
  ∃ ok, st_calls (run_operation st o)
        = st_calls st ++ [CallRename (op_old o) (op_new o) ok]
        ∧ (ok = false -> run_operation st o
             = State (st_fs st) (st_json_data st) (st_success_count st)
                     (st_calls st ++ [CallRename (op_old o) (op_new o) false]))
        ∧ (ok = true ->
           ∀ it u, st_json_data st !! op_idx o = Some it ->
                   it !! image_url = Some (VStr u) ->
                   st_json_data (run_operation st o) !! op_idx o
                   = Some (<[image_url := VStr (normalize_image_path u)]> it)).
Proof.
  destruct o as [[old new] idx]. unfold run_operation, op_old, op_new, op_idx.
  simpl. destruct (rename old new (st_fs st)) as [fs'|].
  - exists true. split; [by destruct (patch_record idx (st_json_data st))|].
    split; [done|]. intros _ it u Hit Hu.
    rewrite (patch_record_str _ _ _ _ Hit Hu). simpl.
    apply list_lookup_insert_eq. by apply lookup_lt_Some in Hit.
  - exists false. split; [done|]. split; [done|]. done.
Qed.

Lemma run_operation_other st o i :
  i ≠ op_idx o ->
  st_json_data (run_operation st o) !! i = st_json_data st !! i.
Proof.
  destruct o as [[old new] idx]. unfold run_operation, op_idx. simpl.
  intros Hne. destruct (rename old new (st_fs st)); [|done].
  destruct (patch_record idx (st_json_data st)) eqn:Hp; [|done].
  simpl. by eapply patch_record_other.
Qed.

Lemma run_operation_length st o :
  length (st_json_data (run_operation st o)) = length (st_json_data st).
Proof.
  destruct o as [[old new] idx]. unfold run_operation. simpl.
  destruct (rename old new (st_fs st)); [|done].
  destruct (patch_record idx (st_json_data st)) eqn:Hp; [|done].
  simpl. by eapply patch_record_length.
Qed.

Lemma run_operations_cons o ops st :
  run_operations (o :: ops) st = run_operations ops (run_operation st o).
Proof. done. Qed.

Lemma run_operations_untouched ops : ∀ st i,
  i ∉ (op_idx <$> ops) ->
  st_json_data (run_operations ops st) !! i = st_json_data st !! i.
Proof.
  induction ops as [|o ops IH]; intros st i Hi; [done|].
  rewrite fmap_cons, not_elem_of_cons in Hi. destruct Hi as [Hne Hi].
  rewrite run_operations_cons, IH by done. by apply run_operation_other.
Qed.

Lemma run_operations_length ops : ∀ st,
  length (st_json_data (run_operations ops st)) = length (st_json_data st).
Proof.
  induction ops as [|o ops IH]; intros st; [done|].
  rewrite run_operations_cons, IH. apply run_operation_length.
Qed.

(** The calls of a run: one rename for each operation, in order, after
    the calls made before. *)
Lemma run_operations_calls ops : ∀ st,
  ∃ oks, length oks = length ops
         ∧ st_calls (run_operations ops st)
           = st_calls st
             ++ zip_with (fun o ok => CallRename (op_old o) (op_new o) ok)
                         ops oks.
Proof.
  induction ops as [|o ops IH]; intros st.
  - exists []. by rewrite app_nil_r.
  - rewrite run_operations_cons.
    destruct (IH (run_operation st o)) as (oks & Hlen & ->).
    destruct (run_operation_calls st o) as (ok & -> & _).
    exists (ok :: oks). split; [simpl; lia|].
    by rewrite <- (assoc_L (++)).
Qed.

Lemma run_operations_calls_length ops st :
  length (st_calls (run_operations ops st))
  = (length (st_calls st) + length ops)%nat.
Proof.
  destruct (run_operations_calls ops st) as (oks & Hlen & ->).
  rewrite length_app, length_zip_with. lia.
Qed.

Lemma run_operations_calls_prefix ops st k :
  (k < length (st_calls st))%nat ->
  st_calls (run_operations ops st) !! k = st_calls st !! k.
Proof.
  intros Hk. destruct (run_operations_calls ops st) as (oks & _ & ->).
  by apply lookup_app_l.
Qed.

(** The [k]-th operation of a list that names no record twice. *)
Lemma run_operations_at ops : ∀ st k o,
  NoDup (op_idx <$> ops) -> ops !! k = Some o ->
  ∃ ok,
    st_calls (run_operations ops st) !! (length (st_calls st) + k)%nat
    = Some (CallRename (op_old o) (op_new o) ok)
    ∧ (ok = false ->
       st_json_data (run_operations ops st) !! op_idx o
       = st_json_data st !! op_idx o)
    ∧ (ok = true ->
       ∀ it u, st_json_data st !! op_idx o = Some it ->
               it !! image_url = Some (VStr u) ->
               st_json_data (run_operations ops st) !! op_idx o
               = Some (<[image_url := VStr (normalize_image_path u)]> it)).
Proof.
  induction ops as [|o0 ops IH]; intros st k o Hnd Hk; [done|].
  rewrite fmap_cons, NoDup_cons in Hnd. destruct Hnd as [Hfresh Hnd].
  rewrite run_operations_cons. destruct k as [|k]; simpl in Hk.
  - simplify_eq. destruct (run_operation_calls st o) as (ok & Hc & Hf & Ht).
    exists ok. rewrite Nat.add_0_r. split; [|split].
    + rewrite run_operations_calls_prefix
        by (rewrite Hc, length_app; simpl; lia).
      rewrite Hc. by apply list_lookup_middle.
    + intros ->. rewrite run_operations_untouched by done.
      by rewrite (Hf eq_refl).
    + intros -> it u Hit Hu. rewrite run_operations_untouched by done. eauto.
  - destruct (IH (run_operation st o0) k o Hnd Hk) as (ok & Hc & Hf & Ht).
    assert (op_idx o ≠ op_idx o0) as Hne.
    { intros Heq. apply Hfresh. rewrite <- Heq.
      apply list_elem_of_fmap. exists o. split; [done|].
      by eapply list_elem_of_lookup_2. }
    exists ok. split; [|split].
    + destruct (run_operation_calls st o0) as (ok0 & Hc0 & _).
      rewrite Hc0, length_app in Hc. simpl in Hc.
      by replace (length (st_calls st) + S k)%nat
        with (length (st_calls st) + 1 + k)%nat by lia.
    + intros Hok. rewrite (Hf Hok). by apply run_operation_other.
    + intros Hok it u Hit Hu. apply (Ht Hok); [|done].
      by rewrite run_operation_other.
Qed.

(** Whatever the operations, the counter is positive only when some
    rename succeeded. *)
Lemma run_operation_count st o :
  (st_success_count st <= st_success_count (run_operation st o))%nat.
Proof.
  destruct o as [[old new] idx]. unfold run_operation. simpl.
  destruct (rename old new (st_fs st)); [|done].
  destruct (patch_record idx (st_json_data st)); simpl; lia.
Qed.

Lemma run_operations_only_renames ops st c :
  c ∈ st_calls (run_operations ops st) ->
  c ∈ st_calls st ∨ ∃ old new ok, c = CallRename old new ok.
Proof.
  destruct (run_operations_calls ops st) as (oks & _ & ->).
  rewrite elem_of_app. intros [?|Hin]; [by left|right].
  apply list_elem_of_lookup in Hin as [k Hk].
  apply lookup_zip_with_Some in Hk as (o & ok & -> & _). eauto.
Qed.

End executor_facts.

(** ** The whole run *)

Section perform_normalization_facts.
Context {FS : Type} `{!OS FS}.
Implicit Types (fs : FS) (doc : document) (ops : list operation).

(** Past the confirmation, [perform_normalization] is the loop and the
    decision to save. *)
Lemma perform_normalization_confirmed json_file_path data_folder response
      fs doc ops :
  load json_file_path fs = Loaded doc ->
  get_file_operations doc data_folder fs = Some ops ->
  ops ≠ [] ->
  Py.lower response = str "y" ∨ Py.lower response = str "yes" ->
  perform_normalization json_file_path data_folder false response fs
  = execute json_file_path ops (State fs doc 0%nat []).
Proof.
  intros Hload Hplan Hops Hyes. unfold perform_normalization.
  rewrite Hload, Hplan. rewrite bool_decide_eq_false_2 by done.
  rewrite bool_decide_eq_true_2; [done|].
  rewrite !elem_of_cons. tauto.
Qed.

(** A dry run, a refusal and an empty plan leave the file system and the
    document alone. *)
Lemma perform_normalization_no_effect json_file_path data_folder dry_run
      response fs :
  dry_run = true
  ∨ ¬ (Py.lower response = str "y" ∨ Py.lower response = str "yes")
  ∨ get_file_operations
      (match load json_file_path fs with Loaded doc => doc | _ => [] end)
      data_folder fs = Some [] ->
  st_fs (final_state
           (perform_normalization json_file_path data_folder dry_run response fs))
  = fs
  ∧ st_calls (final_state
                (perform_normalization json_file_path data_folder dry_run
                   response fs)) = [].
Proof.
  intros Hcase. unfold perform_normalization.
  destruct (load json_file_path fs) as [doc| | |]; simpl; try done.
  destruct (get_file_operations doc data_folder fs) as [ops|]; [|done].
  case_bool_decide as Hops; [done|].
  destruct Hcase as [->|[Hno|Hnil]]; [done| |congruence].
  destruct dry_run; [done|].
  rewrite bool_decide_eq_false_2; [done|].
  rewrite !elem_of_cons, elem_of_nil. tauto.
Qed.

End perform_normalization_facts.

(** The scenario of the specification: one record with a hashed picture
    that is in the folder.  The plan is the one rename, and the run
    renames the file, rewrites the record, makes the backup and saves. *)
Example scenario_plan :
  get_file_operations Examples.christmas (str "imgs") Examples.christmas_fs
  = Some [(str "imgs/1860-12-26_a-merry-christmas_Desconhecido_6733e6c8a768333c2576e98d.png",
           str "imgs/1860-12-26_a-merry-christmas_Desconhecido.png", 0%nat)].
Proof. vm_compute. reflexivity. Qed.

Example scenario_run :
  perform_normalization (str "catalog.json") (str "imgs") false (str "y")
    Examples.christmas_fs
  = Returned
      (State
         {[ str "imgs" := Directory;
            str "imgs/1860-12-26_a-merry-christmas_Desconhecido.png" := Image;
            str "catalog.json" :=
              JsonFile [Examples.record
                          "imgs/1860-12-26_a-merry-christmas_Desconhecido.png"];
            str "catalog.json.backup" := JsonFile Examples.christmas ]}
         [Examples.record "imgs/1860-12-26_a-merry-christmas_Desconhecido.png"]
         1%nat
         [CallRename
            (str "imgs/1860-12-26_a-merry-christmas_Desconhecido_6733e6c8a768333c2576e98d.png")
            (str "imgs/1860-12-26_a-merry-christmas_Desconhecido.png") true;
          CallCopy2 (str "catalog.json") (str "catalog.json.backup") true;
          CallDump (str "catalog.json")
            [Examples.record "imgs/1860-12-26_a-merry-christmas_Desconhecido.png"]
            true]).
Proof. vm_compute. reflexivity. Qed.

(** The clean-up scenario: [a.png] and [b.png] in the folder, [a.png]
    alone referenced. *)
Example scenario_cleanup :
  find_unused [Examples.record "imgs/a.png"]
    (Some [DirEntry (str "a.png") true; DirEntry (str "b.png") true])
  = Some {[ str "b.png" ]}.
Proof. vm_compute. reflexivity. Qed.

(** ** The clean-up pipeline *)

Section cleanup_facts.
Implicit Types (doc : document) (it : item) (n u p : pystr)
         (refs acc : gset pystr) (entries : list dir_entry).

Lemma trailing_segment_url_filename p : trailing_segment p (url_filename p).
Proof.
  destruct (url_filename_spec p) as (H1 & H2 & H3 & H4 & _).
  exists (url_dir p). done.
Qed.

Lemma trailing_segment_unique p n n' :
  trailing_segment p n -> trailing_segment p n' -> n = n'.
Proof.
  assert (∀ dir dir' n n' l,
            dir' = dir ++ l -> n = l ++ n' ->
            ("/"%char ∉ n) -> ("\"%char ∉ n) ->
            (dir' = [] ∨ ∃ d c, dir' = d ++ [c] ∧ (c = "/"%char ∨ c = "\"%char)) ->
            n = n') as Haux.
  { intros dir dir' m m' l -> -> Hm1 Hm2 Hdir'.
    destruct l as [|x l _] using rev_ind; [done|]. exfalso.
    destruct Hdir' as [Hnil|(d & c & Heq & Hc)].
    - apply app_eq_nil in Hnil as [_ Hnil]. by apply app_eq_nil in Hnil as [_ ?].
    - rewrite (assoc_L (++)) in Heq. apply app_inj_tail in Heq as [_ ->].
      rewrite !not_elem_of_app, !list_elem_of_singleton in Hm1, Hm2.
      destruct Hm1 as [[_ Hm1] _], Hm2 as [[_ Hm2] _].
      destruct Hc; congruence. }
  intros (dir & -> & Hn1 & Hn2 & Hdir) (dir' & Heq & Hn1' & Hn2' & Hdir').
  apply app_eq_app in Heq as [l [[-> ->]|[-> ->]]].
  - symmetry. by eapply (Haux dir').
  - by eapply (Haux dir).
Qed.

Lemma trailing_segment_iff p n : trailing_segment p n <-> n = url_filename p.
Proof.
  split.
  - intros Hn. eapply trailing_segment_unique; [done|].
    apply trailing_segment_url_filename.
  - intros ->. apply trailing_segment_url_filename.
Qed.

(** What one record adds. *)
Lemma extract_item_Some acc it refs :
  extract_item acc it = Some refs ->
  ∀ n, n ∈ refs <->
       n ∈ acc ∨ ∃ u, it !! image_url = Some (VStr u)
                      ∧ trailing_segment u n ∧ n ≠ [].
Proof.
  unfold extract_item.
  destruct (it !! image_url) as [[u|b]|] eqn:Hit; simpl.
  - change (posixpath.basename (Py.replace "\"%char "/"%char u))
      with (url_filename u).
    intros Hrefs n.
    setoid_rewrite trailing_segment_iff.
    destruct (decide (u = [])) as [->|Hu].
    + rewrite bool_decide_eq_true_2 in Hrefs by done. simpl in Hrefs.
      simplify_eq. split; [by left|]. intros [?|(u & [= <-] & -> & Hne)]; done.
    + rewrite bool_decide_eq_false_2 in Hrefs by done. simpl in Hrefs.
      case_bool_decide as Hfn; simpl in Hrefs; simplify_eq.
      * split; [by left|].
        intros [?|(u' & [= <-] & -> & Hne)]; done.
      * rewrite elem_of_union, elem_of_singleton. split.
        -- intros [?| ->]; [by left|right]. by exists u.
        -- intros [?|(u' & [= <-] & -> & _)]; auto.
  - destruct b; [done|]. intros [= <-] n. split; [by left|].
    intros [?|(u & ? & _)]; done.
  - intros [= <-] n. split; [by left|]. intros [?|(u & ? & _)]; done.
Qed.

Lemma extract_loop_Some doc : ∀ acc refs,
  extract_loop acc doc = Some refs ->
  ∀ n, n ∈ refs <->
       n ∈ acc ∨ ∃ it u, it ∈ doc ∧ it !! image_url = Some (VStr u)
                         ∧ trailing_segment u n ∧ n ≠ [].
Proof.
  induction doc as [|it doc IH]; intros acc refs; simpl.
  - intros [= <-] n. split; [by left|].
    intros [?|(it & u & Hin & _)]; [done|]. by apply elem_of_nil in Hin.
  - destruct (extract_item acc it) as [acc'|] eqn:Hit; [|done].
    intros Hrest n. rewrite (IH _ _ Hrest n).
    rewrite (extract_item_Some _ _ _ Hit n). split.
    + intros [[?|(u & ? & ?)]|(it' & u & Hin & ?)]; [by left|right..].
      * exists it, u. split; [by left|done].
      * exists it', u. split; [by right|done].
    + intros [?|(it' & u & Hin & Hu & ?)]; [by left; left|].
      apply elem_of_cons in Hin as [->|Hin].
      * left. right. by exists u.
      * right. by exists it', u.
Qed.

Lemma extract_loop_total doc : ∀ acc,
  well_typed doc -> is_Some (extract_loop acc doc).
Proof.
  induction doc as [|it doc IH]; intros acc Hwt; simpl; [by eauto|].
  assert (is_Some (extract_item acc it)) as [acc' ->].
  { unfold extract_item.
    destruct (it !! image_url) as [[u|b]|] eqn:Hit; simpl; [| |by eauto].
    - repeat case_match; by eauto.
    - rewrite (Hwt it b); [by eauto|by left|done]. }
  apply IH. intros it' b Hin. apply Hwt. by right.
Qed.

Lemma lower_char_dot c : Py.lower_char c = "."%char <-> c = "."%char.
Proof.
  split; [|by intros ->].
  destruct c as [[] [] [] [] [] [] [] []]; vm_compute; congruence.
Qed.

Lemma elem_of_lower_dot s : "."%char ∈ Py.lower s <-> "."%char ∈ s.
Proof.
  unfold Py.lower. rewrite list_elem_of_fmap. split.
  - intros (c & Hc & Hin). symmetry in Hc.
    apply (proj1 (lower_char_dot c)) in Hc. by subst.
  - intros Hin. by exists "."%char.
Qed.

Lemma image_extension_names_spec (s : pystr) :
  "."%char :: s ∈ image_extensions
  <-> ∃ ext, ext ∈ image_extension_names ∧ s = str ext.
Proof.
  unfold image_extension_names. cbv [image_extensions str list_ascii_of_string].
  split.
  - rewrite !elem_of_cons, elem_of_nil.
    intros H. repeat destruct H as [H|H]; try done; injection H as ->;
      [exists "png"%string | exists "jpg"%string | exists "jpeg"%string
      | exists "gif"%string | exists "bmp"%string | exists "tiff"%string
      | exists "webp"%string];
      (split; [rewrite !elem_of_cons; auto 10 | reflexivity]).
  - intros (ext & Hin & ->).
    rewrite !elem_of_cons, elem_of_nil in Hin.
    repeat destruct Hin as [->|Hin]; try done;
      rewrite !elem_of_cons; auto 10.
Qed.

Lemma image_extensions_nonempty : [] ∉ image_extensions.
Proof.
  cbv [image_extensions str list_ascii_of_string].
  rewrite !elem_of_cons, elem_of_nil. intros H.
  repeat destruct H as [H|H]; done.
Qed.

Lemma suffix_in_image_extensions n :
  Py.lower (pathlib.suffix_of_name n) ∈ image_extensions
  <-> has_image_extension n.
Proof.
  unfold pathlib.suffix_of_name, posixpath.extsep. split.
  - destruct (Z.ltb_spec 0 (Py.rfind "."%char n)) as [Hpos|]; simpl; last first.
    { intros Hin. by apply image_extensions_nonempty in Hin. }
    destruct (Z.ltb_spec (Py.rfind "."%char n) (Z.of_nat (length n) - 1));
      simpl; last first.
    { intros Hin. by apply image_extensions_nonempty in Hin. }
    destruct (rfind_split "."%char n) as (a & b & -> & Hb & Hlen); [lia|].
    rewrite Hlen, slice_from_app.
    change (Py.lower ("."%char :: b)) with ("."%char :: Py.lower b).
    rewrite image_extension_names_spec. intros (ext & Hin & Hext).
    exists a, b, ext. split; [done|]. split; [|done].
    intros ->. rewrite Hlen in Hpos. simpl in Hpos. lia.
  - intros (stem & e & ext & -> & Hstem & Hin & Hext).
    assert ("."%char ∉ e) as He.
    { rewrite <- elem_of_lower_dot, Hext.
      unfold image_extension_names in Hin.
      rewrite !elem_of_cons, elem_of_nil in Hin.
      repeat destruct Hin as [->|Hin]; try done;
        (match goal with |- ?P => apply (bool_decide_unpack P) end);
        vm_compute; exact I. }
    assert (e ≠ []) as He0.
    { intros ->. unfold image_extension_names in Hin.
      rewrite !elem_of_cons, elem_of_nil in Hin.
      repeat destruct Hin as [->|Hin]; done. }
    rewrite rfind_app_last by done. rewrite length_app. simpl.
    destruct (Z.ltb_spec 0 (Z.of_nat (length stem))) as [|Hle];
      [|destruct stem; [done|simpl in Hle; lia]].
    destruct (Z.ltb_spec (Z.of_nat (length stem))
                (Z.of_nat (length stem + S (length e)) - 1)) as [|Hle];
      [|destruct e; [done|simpl in Hle; lia]].
    simpl. rewrite slice_from_app.
    change (Py.lower ("."%char :: e)) with ("."%char :: Py.lower e).
    apply image_extension_names_spec. eauto.
Qed.

Lemma get_images_in_folder_Some entries images :
  get_images_in_folder (Some entries) = Some images ->
  ∀ n, n ∈ images <->
       ∃ e, e ∈ entries ∧ entry_name e = n ∧ entry_is_file e = true
            ∧ has_image_extension n.
Proof.
  unfold get_images_in_folder. intros [= <-] n.
  assert (∀ acc,
    n ∈ fold_left
          (fun images_in_folder e =>
             if entry_is_file e
                && bool_decide (Py.lower (pathlib.suffix_of_name (entry_name e))
                                  ∈ image_extensions)
             then images_in_folder ∪ {[entry_name e]} else images_in_folder)
          entries acc
    <-> n ∈ acc ∨ ∃ e, e ∈ entries ∧ entry_name e = n
                       ∧ entry_is_file e = true ∧ has_image_extension n)
    as Hfold.
  { induction entries as [|e entries IH]; intros acc; simpl.
    - split; [by left|]. intros [?|(e & Hin & _)]; [done|].
      by apply elem_of_nil in Hin.
    - rewrite IH. clear IH.
      destruct (entry_is_file e) eqn:Hfile; simpl.
      + case_bool_decide as Hext.
        * apply suffix_in_image_extensions in Hext.
          rewrite elem_of_union, elem_of_singleton. split.
          -- intros [[?| ->]|(e' & Hin & ?)]; [by left|right..].
             ++ exists e. split; [by left|done].
             ++ exists e'. split; [by right|done].
          -- intros [?|(e' & Hin & Hn & ?)]; [by left; left|].
             apply elem_of_cons in Hin as [->|Hin]; [by left; right|].
             right. by exists e'.
        * rewrite suffix_in_image_extensions in Hext. split.
          -- intros [?|(e' & Hin & ?)]; [by left|right].
             exists e'. split; [by right|done].
          -- intros [?|(e' & Hin & Hn & Hf & Hx)]; [by left|].
             apply elem_of_cons in Hin as [->|Hin]; [by subst n|].
             right. by exists e'.
      + split.
        * intros [?|(e' & Hin & ?)]; [by left|right].
          exists e'. split; [by right|done].
        * intros [?|(e' & Hin & Hn & Hf & Hx)]; [by left|].
          apply elem_of_cons in Hin as [->|Hin]; [congruence|].
          right. by exists e'. }
  rewrite Hfold. split; [|by right]. intros [Hin|?]; [|done].
  by apply not_elem_of_empty in Hin.
Qed.

End cleanup_facts.

(** * The claims *)

(** ** The file-name normaliser *)

(** C5, as the specification words it, fails on a name that starts with a
    dot: [os.path.splitext] gives [.a_b] no extension, so the underscore is
    in the stem and the name is cut to [.a]; split at the last dot, the
    stem is empty and the name would be kept. *)
Lemma normalize_filename_not_last_dot_split :
  normalize_filename (str ".a_b") = str ".a"
  ∧ Spec.normalize (str ".a_b") = str ".a_b"
  ∧ normalize_filename (str ".a_b") ≠ Spec.normalize (str ".a_b").
Proof. split; [|split]; vm_compute; congruence. Qed.

(** C5 (amended).  For every input, [normalize_filename] splits the input
    into a stem and an extension the way [os.path.splitext] does: at the
    last dot when that dot comes after the last [/] and some character
    other than a dot stands before it in the last component, and otherwise
    with the whole input as the stem and an empty extension.  When the
    stem has no underscore the input is returned unchanged; otherwise the
    result is the stem cut before its last underscore, followed by the
    extension.  Where the input has no dot, or has an extension in this
    sense, this is the split at the last dot of the specification. *)
Theorem normalize_filename_spec (f : pystr) :
  ∃ stem ext,
    f = stem ++ ext
    ∧ (has_extension f stem ext
       ∨ (ext = [] ∧ ∀ s e, ¬ has_extension f s e))
    ∧ (("_"%char ∉ stem) -> normalize_filename f = f)
    ∧ (∀ pre post, stem = pre ++ "_"%char :: post -> ("_"%char ∉ post) ->
                   normalize_filename f = pre ++ ext)
    ∧ (("."%char ∉ f) ∨ has_extension f stem ext ->
       normalize_filename f = Spec.normalize f).
Proof.
  exists (posixpath.splitext f).1, (posixpath.splitext f).2.
  split; [by rewrite splitext_concat|]. split; [|split; [|split]].
  - destruct (splitext_cases f) as [(stem & ext & Hext & ->)|[Hno ->]];
      simpl; auto.
  - apply normalize_filename_no_underscore.
  - intros pre post. apply normalize_filename_underscore.
  - intros [Hdot|Hext]; apply spec_normalize_agrees; eauto.
Qed.

Lemma normalize_filename_spec_witness :
  normalize_filename (str "a_1.png") = Spec.normalize (str "a_1.png").
Proof.
  destruct (normalize_filename_spec (str "a_1.png"))
    as (stem & ext & _ & Hcase & _ & _ & Hagree).
  apply Hagree. destruct Hcase as [Hext|[_ Hno]]; [by right|].
  exfalso. apply (Hno (str "a_1") (str ".png")).
  exists (str "png"). split; [reflexivity|]. split; [reflexivity|].
  split; [|split].
  - match goal with |- ?P => apply (bool_decide_unpack P) end.
    vm_compute. exact I.
  - match goal with |- ?P => apply (bool_decide_unpack P) end.
    vm_compute. exact I.
  - exists "a"%char. split; [|done]. vm_compute. left.
Defined.

(** Where the input has no dot, or has an extension, the split at the last
    dot is the split of [os.path.splitext]. *)
Lemma split_at_last_dot_agrees f :
  ("."%char ∉ f) ∨ (∃ stem ext, has_extension f stem ext) ->
  Spec.split_at_last_dot f = posixpath.splitext f.
Proof.
  intros Hf. unfold Spec.split_at_last_dot.
  destruct Hf as [Hdot|(stem & ext & Hext)].
  - rewrite splitext_no_dot by done.
    apply rfind_not_in in Hdot. by rewrite Hdot.
  - rewrite (splitext_has_extension _ _ _ Hext).
    destruct Hext as (e & -> & -> & He & _).
    rewrite rfind_app_last by done.
    destruct (Z.ltb_spec (Z.of_nat (length stem)) 0); [lia|].
    by rewrite slice_to_app, slice_from_app.
Qed.

(** C9, as the specification words it, fails on a name whose only dots are
    leading: the part of [.a_b] before its last dot is empty, so it has no
    underscore before the extension, and the name is still changed, to
    [.a], because [os.path.splitext] takes all of [.a_b] as the stem. *)
Lemma normalize_filename_changes_dot_name :
  Spec.split_at_last_dot (str ".a_b") = ([], str ".a_b")
  ∧ ("_"%char ∉ (Spec.split_at_last_dot (str ".a_b")).1)
  ∧ normalize_filename (str ".a_b") = str ".a"
  ∧ normalize_filename (str ".a_b") ≠ str ".a_b".
Proof.
  split; [reflexivity|]. split; [|split].
  - change ((Spec.split_at_last_dot (str ".a_b")).1) with (@nil ascii).
    apply not_elem_of_nil.
  - reflexivity.
  - vm_compute. congruence.
Qed.

(** C9 (amended).  A name is returned as it is when the stem that
    [os.path.splitext] gives has no underscore; this is so when the name
    has no dot, or has an extension, and no underscore stands before its
    last dot, and when the name has no underscore at all.  Hence
    normalising twice is normalising once for every name whose normalised
    form has no underscore left, be it in the whole name or in its stem
    only. *)
Theorem normalize_filename_idempotent (f : pystr) :
  (("_"%char ∉ (posixpath.splitext f).1) -> normalize_filename f = f)
  ∧ (("."%char ∉ f) ∨ (∃ stem ext, has_extension f stem ext) ->
     ("_"%char ∉ (Spec.split_at_last_dot f).1) -> normalize_filename f = f)
  ∧ (("_"%char ∉ f) -> normalize_filename f = f)
  ∧ (("_"%char ∉ normalize_filename f) ->
     normalize_filename (normalize_filename f) = normalize_filename f)
  ∧ (("_"%char ∉ (posixpath.splitext (normalize_filename f)).1) ->
     normalize_filename (normalize_filename f) = normalize_filename f).
Proof.
  assert (∀ g, "_"%char ∉ g -> normalize_filename g = g) as Hnone.
  { intros g Hg. apply normalize_filename_no_underscore.
    intros Hin. apply Hg.
    rewrite <- (splitext_concat g), elem_of_app. auto. }
  split; [apply normalize_filename_no_underscore|].
  split; [|split; [|split]].
  - intros Hf Hstem. apply normalize_filename_no_underscore.
    by rewrite <- (split_at_last_dot_agrees f Hf).
  - apply Hnone.
  - apply Hnone.
  - apply normalize_filename_no_underscore.
Qed.

Lemma normalize_filename_idempotent_witness :
  normalize_filename (str "a_1.png") = str "a.png"
  ∧ normalize_filename (str "a.png") = str "a.png"
  ∧ normalize_filename (str "a.b_1") = str "a.b_1"
  ∧ normalize_filename (normalize_filename (str "a_1.png"))
    = normalize_filename (str "a_1.png").
Proof.
  split; [reflexivity|]. split; [|split].
  - apply (proj1 (normalize_filename_idempotent (str "a.png"))).
    vm_compute. intros H. inversion H as [|? ? ? H']. inversion H'.
  - apply (proj1 (proj2 (normalize_filename_idempotent (str "a.b_1")))).
    + right. exists (str "a"), (str ".b_1"), (str "b_1").
      split; [reflexivity|]. split; [reflexivity|]. split; [|split].
      * match goal with |- ?P => apply (bool_decide_unpack P) end.
        vm_compute. exact I.
      * match goal with |- ?P => apply (bool_decide_unpack P) end.
        vm_compute. exact I.
      * exists "a"%char. split; [|done]. vm_compute. left.
    + vm_compute. intros H. inversion H as [|? ? ? H']. inversion H'.
  - apply (proj1 (proj2 (proj2 (proj2 (normalize_filename_idempotent
                                          (str "a_1.png")))))).
    vm_compute. intros H.
    repeat (inversion H as [|? ? ? H']; clear H; rename H' into H).
Defined.

(** C10.  The result of [normalize_filename] is the input or is strictly
    shorter than the input; it ends with the extension that the split of
    the input gave, after a prefix of the stem; the empty name is returned
    as it is.  (The function is total: it is defined for every string.) *)
Theorem normalize_filename_shrinks (f : pystr) :
  (normalize_filename f = f
   ∨ (length (normalize_filename f) < length f)%nat)
  ∧ (∃ pre, normalize_filename f = pre ++ (posixpath.splitext f).2
            ∧ pre `prefix_of` (posixpath.splitext f).1)
  ∧ normalize_filename [] = [].
Proof.
  split; [|split; [|done]].
  - destruct (normalize_filename_cases f) as [[_ ->]|(pre & post & Hs & _ & ->)];
      [by left|right].
    rewrite <- (splitext_concat f) at 2. rewrite Hs, !length_app. simpl. lia.
  - destruct (normalize_filename_cases f) as [[_ ->]|(pre & post & Hs & _ & ->)].
    + exists (posixpath.splitext f).1. by rewrite splitext_concat.
    + exists pre. split; [done|]. rewrite Hs. by apply prefix_app_r.
Qed.

(** ** Rewriting an [image_url] *)

(** C8, as the specification words it, fails on a path that mixes the two
    separators: the forward slash of [a/b\c_1.png] becomes a backslash. *)
Lemma normalize_image_path_changes_separator :
  normalize_image_path (str "a/b\c_1.png") = str "a\b\c.png"
  ∧ Spec.rewrite_path (str "a/b\c_1.png") = str "a/b\c.png"
  ∧ normalize_image_path (str "a/b\c_1.png")
    ≠ Spec.rewrite_path (str "a/b\c_1.png").
Proof. split; [|split]; vm_compute; congruence. Qed.

(** C8 (amended).  For every path, [normalize_image_path] replaces the
    trailing file-name segment by its normalised form and keeps every
    other segment.  The separators are kept as they are when the path
    has no backslash or no forward slash; when the path has a backslash,
    every forward slash before the file name becomes a backslash, so the
    rewritten path has backslashes only. *)
Theorem normalize_image_path_frame (p : pystr) :
  p = url_dir p ++ url_filename p
  ∧ trailing_segment p (url_filename p)
  ∧ normalize_image_path p
    = (if Py.contains "\"%char p
       then Py.replace "/"%char "\"%char (url_dir p) else url_dir p)
      ++ normalize_filename (url_filename p)
  ∧ Spec.components (normalize_image_path p)
    = Py.set_last_part (normalize_filename (url_filename p))
                       (Spec.components p)
  ∧ (("\"%char ∉ p) ∨ ("/"%char ∉ p) ->
     normalize_image_path p = Spec.rewrite_path p)
  ∧ ("\"%char ∈ p -> "/"%char ∉ normalize_image_path p).
Proof.
  split; [apply url_filename_spec|].
  split; [apply trailing_segment_url_filename|].
  split; [apply normalize_image_path_eq|].
  split; [apply components_normalize_image_path|].
  split; [apply normalize_image_path_one_style|].
  apply normalize_image_path_backslashes.
Qed.

Lemma normalize_image_path_frame_witness :
  normalize_image_path (str "imgs\old\a_1.png")
  = Spec.rewrite_path (str "imgs\old\a_1.png")
  ∧ "/"%char ∉ normalize_image_path (str "imgs\old\a_1.png").
Proof.
  pose proof (normalize_image_path_frame (str "imgs\old\a_1.png")) as H.
  destruct H as (_ & _ & _ & _ & Hone & Hback). split.
  - apply Hone. right.
    match goal with |- ?P => apply (bool_decide_unpack P) end.
    vm_compute. exact I.
  - apply Hback.
    match goal with |- ?P => apply (bool_decide_unpack P) end.
    vm_compute. exact I.
Defined.

(** ** The planner *)

(** C1.  The planner checks the destination against the files on disk
    only, not against the destinations it has already planned: for two
    records whose file names differ in the part after the last underscore
    it returns two operations with different, existing sources and one
    destination.  Executed on a file system that renames as POSIX does,
    both renames succeed and one file is left. *)
Theorem get_file_operations_shared_destination :
  get_file_operations Examples.two_hashes (str "imgs") Examples.two_hashes_fs
  = Some [(str "imgs/a_1.png", str "imgs/a.png", 0%nat);
          (str "imgs/a_2.png", str "imgs/a.png", 1%nat)]
  ∧ exists_ Examples.two_hashes_fs (str "imgs/a_1.png") = true
  ∧ exists_ Examples.two_hashes_fs (str "imgs/a_2.png") = true
  ∧ st_fs (run_operations
             [(str "imgs/a_1.png", str "imgs/a.png", 0%nat);
              (str "imgs/a_2.png", str "imgs/a.png", 1%nat)]
             (State Examples.two_hashes_fs Examples.two_hashes 0%nat []))
    = {[ str "imgs" := Directory; str "imgs/a.png" := Image ]}.
Proof. repeat split; vm_compute; reflexivity. Qed.

(** ** The executor *)

(** C3, as the specification words it, fails when the backup copy raises,
    which [save_json_data] does not catch.  The catalogue here lies in the
    image folder and one of its records refers to it: the planned rename
    moves the JSON file, the counter of successes becomes one, and the
    copy of the JSON file from its former path raises; nothing is
    written. *)
Lemma perform_normalization_success_without_save :
  perform_normalization (str "imgs/cat_1.json") (str "imgs") false (str "y")
    Examples.own_catalog_fs
  = Uncaught
      (State {[ str "imgs" := Directory;
                str "imgs/cat.json" := JsonFile Examples.own_catalog ]}
             [Examples.record "imgs/cat.json"] 1%nat
             [CallRename (str "imgs/cat_1.json") (str "imgs/cat.json") true;
              CallCopy2 (str "imgs/cat_1.json")
                (str "imgs/cat_1.json.backup") false])
  ∧ (0 < st_success_count
           (final_state
              (perform_normalization (str "imgs/cat_1.json") (str "imgs")
                 false (str "y") Examples.own_catalog_fs)))%nat
  ∧ ¬ ∃ path data ok,
        CallDump path data ok
        ∈ st_calls
            (final_state
               (perform_normalization (str "imgs/cat_1.json") (str "imgs")
                  false (str "y") Examples.own_catalog_fs)).
Proof.
  assert (perform_normalization (str "imgs/cat_1.json") (str "imgs") false
            (str "y") Examples.own_catalog_fs
          = Uncaught
              (State {[ str "imgs" := Directory;
                        str "imgs/cat.json" := JsonFile Examples.own_catalog ]}
                     [Examples.record "imgs/cat.json"] 1%nat
                     [CallRename (str "imgs/cat_1.json") (str "imgs/cat.json")
                        true;
                      CallCopy2 (str "imgs/cat_1.json")
                        (str "imgs/cat_1.json.backup") false])) as Hrun
    by (vm_compute; reflexivity).
  split; [exact Hrun|]. rewrite Hrun. split; [simpl; lia|].
  intros (path & data & ok & Hin). simpl in Hin.
  apply elem_of_cons in Hin as [Hin|Hin]; [discriminate Hin|].
  apply elem_of_cons in Hin as [Hin|Hin]; [discriminate Hin|].
  by apply elem_of_nil in Hin.
Qed.

Section executor_claims.
Context {FS : Type} `{!OS FS}.

(** C2.  When the planner has returned the operations for a document and a
    folder that exists, and the rename of one of them succeeds during the
    run, then at the end of the run, whatever happened to the operations
    after it, the record of that operation has an [image_url] whose
    file name is the file name of the destination of the rename. *)
Theorem renamed_record_names_destination
        (fs : FS) (doc : document) (folder : pystr) (ops : list operation)
        (k : nat) (old new : pystr) (i : nat) :
  get_file_operations doc folder fs = Some ops ->
  exists_ fs (pathlib.to_str folder) = true ->
  ops !! k = Some (old, new, i) ->
  st_calls (run_operations ops (State fs doc 0%nat [])) !! k
  = Some (CallRename old new true) ->
  ∃ it u,
    st_json_data (run_operations ops (State fs doc 0%nat [])) !! i = Some it
    ∧ it !! image_url = Some (VStr u)
    ∧ url_filename u = posixpath.basename new.
Proof.
  intros Hplan Hfolder Hk Hcall.
  apply get_file_operations_sound in Hplan as [Hall Hnd].
  rewrite Forall_forall in Hall.
  destruct (Hall _ (list_elem_of_lookup_2 _ _ _ Hk))
    as (it & u & Hit & Hu & Hne & Hfn & Hold & Hnew & Hex & Hfree).
  unfold op_old, op_new, op_idx in *. simpl in *.
  destruct (run_operations_at ops (State fs doc 0%nat []) k _ Hnd Hk)
    as (ok & Hc & _ & Hpatch).
  simpl in Hc. rewrite Hcall in Hc. injection Hc as <-.
  exists (<[image_url := VStr (normalize_image_path u)]> it),
         (normalize_image_path u).
  split; [by apply (Hpatch eq_refl it u)|].
  split; [by apply lookup_insert_eq|].
  rewrite url_filename_normalize_image_path.
  destruct (url_filename_spec u) as (_ & Hs1 & _).
  assert (url_filename u ≠ []) as Hfn0.
  { intros Heq. apply Hfn. by rewrite Heq. }
  assert (url_filename u ≠ ["."%char]) as Hfn1.
  { intros Heq. apply Hfn. by rewrite Heq. }
  destruct (decide (normalize_filename (url_filename u) = []
                    ∨ normalize_filename (url_filename u) = ["."%char]))
    as [Hdrop|Hkeep].
  - exfalso. rewrite (to_str_truediv_dropped _ _ Hdrop) in Hnew.
    destruct Hfree as [Hfree|Hsame]; [congruence|].
    apply (to_str_truediv_ne folder (url_filename u)); [done..|].
    congruence.
  - rewrite Hnew. symmetry. apply basename_to_str_truediv.
    + apply normalize_filename_no_seps.
    + intros ?. apply Hkeep. by left.
    + intros ?. apply Hkeep. by right.
Qed.

(** C3 (amended).  After the loop over the operations, the document is
    written when and only when the counter of successes is positive and
    the backup copy has been made.  The copy of the JSON file to its path
    followed by [.backup] is attempted when and only when the counter is
    positive, as the first call after the renames.  With no success the
    run returns having made no call but the renames.  When the copy
    succeeds, the next and last call writes the document in memory to the
    JSON file, and the run returns if the write succeeds and exits if it
    raises.  When the copy raises, the exception ends the run and nothing
    is written.  The document written has every record of the document
    loaded, those that no operation names as they were. *)
Theorem execute_saves_iff_success_and_backup
        (json_file_path : pystr) (ops : list operation)
        (fs : FS) (doc : document) :
  let st' := run_operations ops (State fs doc 0%nat []) in
  let out := execute json_file_path ops (State fs doc 0%nat []) in
  let backup_path := json_file_path ++ str ".backup" in
  let backed_up := copy2 json_file_path backup_path (st_fs st') in
  ((∃ path data ok, CallDump path data ok ∈ st_calls (final_state out))
   <-> (0 < st_success_count st')%nat ∧ is_Some backed_up)
  ∧ ((∃ src dst ok, CallCopy2 src dst ok ∈ st_calls (final_state out))
     <-> (0 < st_success_count st')%nat)
  ∧ (st_success_count st' = 0%nat ->
     out = Returned st'
     ∧ ∀ c, c ∈ st_calls st' -> ∃ old new ok, c = CallRename old new ok)
  ∧ ((0 < st_success_count st')%nat ->
     ∀ fs1, backed_up = Some fs1 ->
       st_calls (final_state out)
       = st_calls st'
         ++ [CallCopy2 json_file_path backup_path true;
             CallDump json_file_path (st_json_data st')
               (bool_decide
                  (is_Some (dump json_file_path (st_json_data st') fs1)))]
       ∧ (∀ fs2, dump json_file_path (st_json_data st') fs1 = Some fs2 ->
            out = Returned (State fs2 (st_json_data st')
                              (st_success_count st')
                              (st_calls (final_state out))))
       ∧ (dump json_file_path (st_json_data st') fs1 = None ->
          ∃ st'', out = SysExit st''))
  ∧ ((0 < st_success_count st')%nat -> backed_up = None ->
     (∃ st'', out = Uncaught st'')
     ∧ st_calls (final_state out)
       = st_calls st' ++ [CallCopy2 json_file_path backup_path false]
     ∧ st_json_data (final_state out) = st_json_data st')
  ∧ length (st_json_data st') = length doc
  ∧ (∀ i, i ∉ (op_idx <$> ops) -> st_json_data st' !! i = doc !! i).
Proof.
  intros st' out backup_path backed_up.
  assert (∀ c, c ∈ st_calls st' -> ∃ old new ok, c = CallRename old new ok)
    as Hren.
  { intros c Hc. apply run_operations_only_renames in Hc as [Hc|?]; [|done].
    by apply elem_of_nil in Hc. }
  assert (st_success_count st' = 0%nat -> out = Returned st') as Hzero.
  { intros H0. unfold out, execute. fold st'. by rewrite H0. }
  assert ((0 < st_success_count st')%nat ->
          out = save_json_data json_file_path (st_json_data st') true st')
    as Hpos.
  { intros Hlt. unfold out, execute. fold st'.
    by destruct (Nat.ltb_spec 0 (st_success_count st')) as [_|]; [|lia]. }
  assert ((0 < st_success_count st')%nat -> ∀ fs1, backed_up = Some fs1 ->
          st_calls (final_state out)
          = st_calls st'
            ++ [CallCopy2 json_file_path backup_path true;
                CallDump json_file_path (st_json_data st')
                  (bool_decide
                     (is_Some (dump json_file_path (st_json_data st') fs1)))])
    as Hsaved.
  { intros Hlt fs1 Hb. rewrite (Hpos Hlt). unfold save_json_data.
    fold backup_path. fold backed_up. rewrite Hb. simpl.
    by destruct (dump json_file_path (st_json_data st') fs1) as [fs2|];
      simpl; rewrite <- app_assoc. }
  assert ((0 < st_success_count st')%nat -> backed_up = None ->
          out = Uncaught
                  (State (st_fs st') (st_json_data st') (st_success_count st')
                     (st_calls st'
                      ++ [CallCopy2 json_file_path backup_path false])))
    as Hfailed.
  { intros Hlt Hb. rewrite (Hpos Hlt). unfold save_json_data.
    fold backup_path. fold backed_up. by rewrite Hb. }
  assert (backed_up = None ∨ ∃ fs1, backed_up = Some fs1) as Hcase
    by (destruct backed_up; eauto).
  split; [|split; [|split; [|split; [|split; [|split]]]]].
  - split.
    + intros (path & data & ok & Hin).
      destruct (decide (0 < st_success_count st')%nat) as [Hlt|Hle].
      * split; [done|]. destruct Hcase as [Hb|[fs1 Hb]]; [|by eexists].
        exfalso. rewrite (Hfailed Hlt Hb) in Hin. simpl in Hin.
        apply elem_of_app in Hin as [Hin|Hin].
        -- by destruct (Hren _ Hin) as (? & ? & ? & ?).
        -- apply list_elem_of_singleton in Hin. discriminate Hin.
      * exfalso. rewrite Hzero in Hin by lia. simpl in Hin.
        by destruct (Hren _ Hin) as (? & ? & ? & ?).
    + intros [Hlt [fs1 Hb]]. eexists _, _, _. rewrite (Hsaved Hlt fs1 Hb).
      apply elem_of_app. right. apply elem_of_cons. right.
      apply elem_of_cons. by left.
  - split.
    + intros (src & dst & ok & Hin).
      destruct (decide (0 < st_success_count st')%nat) as [Hlt|Hle]; [done|].
      exfalso. rewrite Hzero in Hin by lia. simpl in Hin.
      by destruct (Hren _ Hin) as (? & ? & ? & ?).
    + intros Hlt. destruct Hcase as [Hb|[fs1 Hb]].
      * eexists _, _, _. rewrite (Hfailed Hlt Hb). simpl.
        apply elem_of_app. right. apply elem_of_cons. by left.
      * eexists _, _, _. rewrite (Hsaved Hlt fs1 Hb).
        apply elem_of_app. right. apply elem_of_cons. by left.
  - intros H0. split; [by apply Hzero|done].
  - intros Hlt fs1 Hb. split; [by apply Hsaved|]. split.
    + intros fs2 Hd. rewrite (Hsaved Hlt fs1 Hb). rewrite (Hpos Hlt).
      unfold save_json_data. fold backup_path. fold backed_up.
      rewrite Hb. simpl. rewrite Hd. simpl. by rewrite <- app_assoc.
    + intros Hd. rewrite (Hpos Hlt).
      unfold save_json_data. fold backup_path. fold backed_up.
      rewrite Hb. simpl. rewrite Hd. by eexists.
  - intros Hlt Hb. rewrite (Hfailed Hlt Hb). simpl.
    split; [by eexists|done].
  - apply (run_operations_length ops (State fs doc 0%nat [])).
  - intros i Hi. by apply (run_operations_untouched ops (State fs doc 0%nat [])).
Qed.


End executor_claims.

Lemma renamed_record_names_destination_witness :
  ∃ it u,
    st_json_data (run_operations Examples.shared_picture_ops
                    (State Examples.shared_picture_fs Examples.shared_picture
                           0%nat [])) !! 0%nat = Some it
    ∧ it !! image_url = Some (VStr u)
    ∧ url_filename u = posixpath.basename (str "imgs/a.png").
Proof.
  apply (renamed_record_names_destination
           Examples.shared_picture_fs Examples.shared_picture (str "imgs")
           Examples.shared_picture_ops 0
           (str "imgs/a_1.png") (str "imgs/a.png") 0);
    vm_compute; reflexivity.
Defined.

Lemma execute_saves_iff_success_and_backup_witness :
  (0 < st_success_count
         (run_operations Examples.shared_picture_ops
            (State Examples.shared_picture_fs Examples.shared_picture 0%nat [])))%nat
  ∧ st_calls (final_state
                (execute (str "catalog.json") Examples.shared_picture_ops
                   (State Examples.shared_picture_fs Examples.shared_picture
                          0%nat [])))
    = [CallRename (str "imgs/a_1.png") (str "imgs/a.png") true;
       CallRename (str "imgs/a_1.png") (str "imgs/a.png") false;
       CallRename (str "imgs/b_2.png") (str "imgs/b.png") true;
       CallCopy2 (str "catalog.json") (str "catalog.json.backup") true;
       CallDump (str "catalog.json")
         [Examples.record "imgs/a.png"; Examples.record "old\a_1.png";
          Examples.record "imgs/b.png"]
         true].
Proof.
  assert (0 < st_success_count
                (run_operations Examples.shared_picture_ops
                   (State Examples.shared_picture_fs Examples.shared_picture
                          0%nat [])))%nat as Hpos
    by (vm_compute; lia).
  split; [exact Hpos|].
  destruct (execute_saves_iff_success_and_backup (str "catalog.json")
              Examples.shared_picture_ops Examples.shared_picture_fs
              Examples.shared_picture) as (_ & _ & _ & Hsave & _).
  destruct (Hsave Hpos
              (<[str "catalog.json.backup" := JsonFile Examples.shared_picture]>
                 (st_fs (run_operations Examples.shared_picture_ops
                    (State Examples.shared_picture_fs
                           Examples.shared_picture 0%nat [])))))
    as (Hcalls & _); [vm_compute; reflexivity|].
  rewrite Hcalls. vm_compute. reflexivity.
Defined.


(** ** The clean-up pipeline *)

(** C7, as the specification words it, fails on a path that ends in a
    separator: its last non-empty component is [a.png], but the text after
    the last separator is empty and the record adds nothing. *)
Lemma extract_referenced_images_trailing_separator :
  extract_referenced_images [Examples.record "imgs/a.png/"] = Some ∅
  ∧ Spec.referenced [Examples.record "imgs/a.png/"] = {[ str "a.png" ]}
  ∧ extract_referenced_images [Examples.record "imgs/a.png/"]
    ≠ Some (Spec.referenced [Examples.record "imgs/a.png/"]).
Proof.
  assert (Spec.referenced [Examples.record "imgs/a.png/"] = {[ str "a.png" ]})
    as Hspec by (vm_compute; reflexivity).
  split; [vm_compute; reflexivity|]. split; [done|].
  rewrite Hspec. intros Heq. vm_compute in Heq. discriminate Heq.
Qed.

(** C7 (amended).  [extract_referenced_images] returns a set whenever no
    [image_url] of the document is a truthy value that is not a string,
    and the names in the set are exactly the non-empty trailing segments
    of the string values of [image_url]: what follows the last separator,
    [/] or [\], of the path.  So a record without [image_url], with an
    [image_url] that is empty or not a string, or with a path that ends in
    a separator adds nothing. *)
Theorem extract_referenced_images_spec (doc : document) :
  (well_typed doc -> is_Some (extract_referenced_images doc))
  ∧ ∀ refs, extract_referenced_images doc = Some refs ->
      ∀ n, n ∈ refs <->
           ∃ it u, it ∈ doc ∧ it !! image_url = Some (VStr u)
                   ∧ trailing_segment u n ∧ n ≠ [].
Proof.
  split; [apply extract_loop_total|].
  intros refs Hrefs n. unfold extract_referenced_images in Hrefs.
  rewrite (extract_loop_Some _ _ _ Hrefs n). split; [|by right].
  intros [Hin|?]; [|done]. by apply not_elem_of_empty in Hin.
Qed.

Lemma extract_referenced_images_spec_witness :
  ∃ refs, extract_referenced_images Examples.referencing_a = Some refs
          ∧ str "a.png" ∈ refs.
Proof.
  destruct (extract_referenced_images_spec Examples.referencing_a)
    as [Htotal Hspec].
  assert (well_typed Examples.referencing_a) as Hwt.
  { intros it b Hin Hit.
    apply elem_of_cons in Hin as [->|Hin]; [by vm_compute in Hit|].
    apply elem_of_cons in Hin as [->|Hin]; [by vm_compute in Hit|].
    by apply elem_of_nil in Hin. }
  destruct (Htotal Hwt) as [refs Hrefs].
  exists refs. split; [exact Hrefs|].
  apply (Hspec refs Hrefs).
  exists (Examples.record "imgs/a.png"), (str "imgs/a.png").
  split; [by left|]. split; [reflexivity|]. split; [|done].
  apply trailing_segment_iff. reflexivity.
Defined.



(** * Further properties *)

(** ** The file-name normaliser *)

(** X1.  The names [normalize_filename] returns unchanged are exactly the
    names with no underscore in the stem; so normalising a normalised name
    again cuts it once more whenever an underscore is left in its stem. *)
Theorem normalize_filename_fixed_iff (f : pystr) :
  normalize_filename f = f <-> "_"%char ∉ (posixpath.splitext f).1.
Proof.
  split; [|apply normalize_filename_no_underscore].
  intros Hfix Hin.
  destruct (normalize_filename_cases f) as [[Hno _]|(pre & post & Hs & _ & Hcut)];
    [done|].
  rewrite Hcut in Hfix. apply (f_equal length) in Hfix.
  rewrite <- (splitext_concat f) in Hfix at 2.
  rewrite Hs, !length_app in Hfix. simpl in Hfix. lia.
Qed.

(** X2.  [normalize_filename] only deletes characters: its result is the
    input with some characters left out, in the same order, so a name
    without a path separator stays without one. *)
Theorem normalize_filename_sublist (f : pystr) :
  normalize_filename f `sublist_of` f
  ∧ ∀ c, c ∈ normalize_filename f -> c ∈ f.
Proof.
  split; [|intros c; apply elem_of_normalize_filename].
  destruct (normalize_filename_cases f) as [[_ ->]|(pre & post & Hs & _ & ->)];
    [done|].
  rewrite <- (splitext_concat f) at 2. rewrite Hs.
  apply sublist_app; [|done].
  apply sublist_inserts_r. done.
Qed.

(** ** Rewriting an [image_url] *)

(** X3.  [normalize_image_path] never makes a path longer, and returns
    the path as it is exactly when the file name is already normalised and
    the path does not have both a backslash and a forward slash. *)
Theorem normalize_image_path_fixed_iff (p : pystr) :
  (length (normalize_image_path p) <= length p)%nat
  ∧ (normalize_image_path p = p
     <-> normalize_filename (url_filename p) = url_filename p
         ∧ (("\"%char ∉ p) ∨ ("/"%char ∉ p))).
Proof.
  destruct (url_filename_spec p) as (Hsplit & Hn1 & Hn2 & _).
  pose proof (normalize_image_path_eq p) as Heq.
  pose proof (f_equal length Hsplit) as Hlenp. rewrite length_app in Hlenp.
  assert (length (if Py.contains "\"%char p
                  then Py.replace "/"%char "\"%char (url_dir p)
                  else url_dir p) = length (url_dir p)) as Hlen.
  { destruct (Py.contains "\"%char p); [|done]. apply replace_length. }
  split.
  - rewrite Heq, length_app, Hlen.
    pose proof (sublist_length _ _
                  (proj1 (normalize_filename_sublist (url_filename p)))).
    lia.
  - split.
    + intros Hfix. rewrite Heq in Hfix.
      assert ((if Py.contains "\"%char p
               then Py.replace "/"%char "\"%char (url_dir p)
               else url_dir p) ++ normalize_filename (url_filename p)
              = url_dir p ++ url_filename p) as Hfix'
        by (by rewrite <- Hsplit).
      apply app_inj_1 in Hfix' as [Hdir Hfn]; [|done]. split; [done|].
      destruct (decide ("\"%char ∈ p)) as [Hb|Hb]; [|by left]. right.
      unfold Py.contains in Hdir.
      rewrite bool_decide_eq_true_2 in Hdir by done.
      intros Hs. rewrite Hsplit, elem_of_app in Hs.
      destruct Hs as [Hs|Hs]; [|done].
      assert ("/"%char ∈ Py.replace "/"%char "\"%char (url_dir p)) as Hin
        by (by rewrite Hdir).
      apply elem_of_replace in Hin as [[? _]|[? _]]; done.
    + intros [Hfn Hone]. rewrite (normalize_image_path_one_style p Hone).
      rewrite rewrite_path_eq, Hfn. by rewrite <- Hsplit.
Qed.

(** ** The planner *)

Section planner_more.
Context {FS : Type} `{!OS FS}.
Implicit Types (fs : FS) (folder : pystr) (doc : document) (o : operation)
         (ops : list operation) (it : item).

(** The file name of an [image_url] that is not normalised is a name
    [pathlib] keeps. *)
Lemma url_filename_kept u :
  url_filename u ≠ normalize_filename (url_filename u) ->
  ("/"%char ∉ url_filename u) ∧ url_filename u ≠ []
  ∧ url_filename u ≠ ["."%char].
Proof.
  intros Hne. destruct (url_filename_spec u) as (_ & Hs & _).
  split; [done|]. split; intros Heq; apply Hne; by rewrite Heq.
Qed.

(** The source and the destination of a rename are different paths. *)
Lemma truediv_normalized_ne folder u :
  url_filename u ≠ normalize_filename (url_filename u) ->
  pathlib.to_str (pathlib.truediv folder (normalize_filename (url_filename u)))
  ≠ pathlib.to_str (pathlib.truediv folder (url_filename u)).
Proof.
  intros Hne Heq. destruct (url_filename_kept u Hne) as (Hs & H0 & H1).
  destruct (decide (normalize_filename (url_filename u) = []
                    ∨ normalize_filename (url_filename u) = ["."%char]))
    as [Hdrop|Hkeep].
  - rewrite (to_str_truediv_dropped _ _ Hdrop) in Heq.
    by apply (to_str_truediv_ne folder (url_filename u)).
  - apply Hne. apply (f_equal posixpath.basename) in Heq.
    rewrite (basename_to_str_truediv folder (url_filename u)) in Heq by done.
    rewrite basename_to_str_truediv in Heq; [done| | |].
    + apply normalize_filename_no_seps.
    + intros ?. apply Hkeep. by left.
    + intros ?. apply Hkeep. by right.
Qed.

(** One round of the planner, both ways. *)
Lemma plan_item_Some_iff fs folder idx it o :
  plan_item fs folder idx it = Some (Some o)
  <-> ∃ u, it !! image_url = Some (VStr u)
           ∧ u ≠ []
           ∧ url_filename u ≠ normalize_filename (url_filename u)
           ∧ exists_ fs (pathlib.to_str
                           (pathlib.truediv folder (url_filename u))) = true
           ∧ exists_ fs (pathlib.to_str
                           (pathlib.truediv folder
                              (normalize_filename (url_filename u)))) = false
           ∧ o = (pathlib.to_str (pathlib.truediv folder (url_filename u)),
                  pathlib.to_str
                    (pathlib.truediv folder
                       (normalize_filename (url_filename u))),
                  idx).
Proof.
  split.
  - intros Hp. apply plan_item_Some in Hp
      as (Hidx & u & Hu & Hne & Hfn & Hold & Hnew & Hex & Hfree).
    exists u. destruct o as [[old new] i].
    unfold op_old, op_new, op_idx in *. simpl in *. subst.
    do 4 (split; [done|]). split; [|done].
    destruct Hfree as [?|Hsame]; [done|].
    by apply truediv_normalized_ne in Hsame.
  - intros (u & Hu & Hne & Hfn & Hex & Hfree & ->).
    unfold plan_item, pathlib.eqb. rewrite Hu. simpl.
    rewrite (bool_decide_eq_false_2 (u = [])) by done. simpl.
    change (posixpath.basename (Py.replace "\"%char "/"%char u))
      with (url_filename u).
    rewrite bool_decide_eq_false_2 by done.
    by rewrite Hex, Hfree.
Qed.

Lemma plan_item_None_iff fs folder idx it :
  plan_item fs folder idx it = None
  <-> it !! image_url = Some (VOther true).
Proof.
  unfold plan_item.
  destruct (it !! image_url) as [[u|[]]|]; simpl; split; try done.
  repeat case_match; done.
Qed.

(** The plan holds the operations of the rounds, and nothing else. *)
Lemma plan_from_elem fs folder doc : ∀ i ops,
  plan_from fs folder i doc = Some ops ->
  ∀ o, o ∈ ops
       <-> ∃ k it, doc !! k = Some it
                   ∧ plan_item fs folder (i + k) it = Some (Some o).
Proof.
  induction doc as [|it doc IH]; intros i ops; simpl.
  - intros [= <-] o. split; [by rewrite elem_of_nil|].
    by intros (k & it & Hk & _).
  - destruct (plan_item fs folder i it) as [r|] eqn:Hit; [|done].
    destruct (plan_from fs folder (S i) doc) as [ops'|] eqn:Hrest; [|done].
    intros [= <-] o. rewrite elem_of_app, (IH _ _ Hrest o). split.
    + intros [Hin|(k & it' & Hk & Hp)].
      * exists 0%nat, it. rewrite Nat.add_0_r. split; [done|].
        destruct r as [o'|]; simpl in Hin;
          [apply list_elem_of_singleton in Hin as ->; done
          |by apply elem_of_nil in Hin].
      * exists (S k), it'. split; [done|].
        by replace (i + S k)%nat with (S i + k)%nat by lia.
    + intros ([|k] & it' & Hk & Hp); simpl in Hk.
      * left. injection Hk as <-. rewrite Nat.add_0_r, Hit in Hp.
        injection Hp as ->. simpl. by apply list_elem_of_singleton.
      * right. exists k, it'. split; [done|].
        by replace (S i + k)%nat with (i + S k)%nat by lia.
Qed.

Lemma plan_from_None_iff fs folder doc : ∀ i,
  plan_from fs folder i doc = None
  <-> ∃ it, it ∈ doc ∧ it !! image_url = Some (VOther true).
Proof.
  induction doc as [|it doc IH]; intros i; simpl.
  - split; [done|]. intros (it & Hin & _). by apply elem_of_nil in Hin.
  - destruct (plan_item fs folder i it) as [r|] eqn:Hit.
    + assert (it !! image_url ≠ Some (VOther true)) as Hok.
      { intros Hbad. apply (plan_item_None_iff fs folder i) in Hbad.
        congruence. }
      destruct (plan_from fs folder (S i) doc) as [ops'|] eqn:Hrest.
      * split; [done|]. intros (it' & Hin & Hbad).
        apply elem_of_cons in Hin as [->|Hin]; [done|].
        assert (plan_from fs folder (S i) doc = None) as Hnone
          by (apply IH; eauto).
        congruence.
      * split; [|done]. intros _. apply IH in Hrest as (it' & Hin & Hbad).
        exists it'. split; [by right|done].
    + split; [|done]. intros _. exists it. split; [by left|].
      by apply (plan_item_None_iff fs folder i).
Qed.

(** The indices of the plan grow. *)
Lemma plan_from_sorted fs folder doc : ∀ i ops,
  plan_from fs folder i doc = Some ops ->
  ∀ j k o o', (j < k)%nat -> ops !! j = Some o -> ops !! k = Some o' ->
              (i <= op_idx o)%nat ∧ (op_idx o < op_idx o')%nat.
Proof.
  induction doc as [|it doc IH]; intros i ops; simpl.
  - intros [= <-] j k o o' _ Hj. done.
  - destruct (plan_item fs folder i it) as [r|] eqn:Hit; [|done].
    destruct (plan_from fs folder (S i) doc) as [ops'|] eqn:Hrest; [|done].
    intros [= <-] j k o o' Hjk Hj Hk.
    pose proof (plan_from_sound fs folder doc _ _ Hrest) as [Hall _].
    rewrite Forall_forall in Hall.
    destruct r as [o0|]; simpl in *.
    + pose proof (plan_item_Some _ _ _ _ _ Hit) as [Hidx _].
      destruct j as [|j]; simpl in Hj.
      * injection Hj as <-. destruct k as [|k]; [lia|]. simpl in Hk.
        destruct (Hall o' (list_elem_of_lookup_2 _ _ _ Hk)) as [Hle _]. lia.
      * destruct k as [|k]; [lia|]. simpl in Hk.
        destruct (IH _ _ Hrest j k o o') as [? ?]; [lia|done..|]. lia.
    + destruct (IH _ _ Hrest j k o o') as [? ?]; [lia|done..|]. lia.
Qed.

End planner_more.

Section planner_extras.
Context {FS : Type} `{!OS FS}.
Implicit Types (fs : FS) (folder : pystr) (doc : document)
         (ops : list operation).

Lemma plan_from_length fs folder doc : ∀ i ops,
  plan_from fs folder i doc = Some ops -> (length ops <= length doc)%nat.
Proof.
  induction doc as [|it doc IH]; intros i ops; simpl.
  - by intros [= <-].
  - destruct (plan_item fs folder i it) as [r|]; [|done].
    destruct (plan_from fs folder (S i) doc) as [ops'|] eqn:Hrest; [|done].
    intros [= <-]. rewrite length_app. specialize (IH _ _ Hrest).
    destruct r; simpl; lia.
Qed.

(** The prefix that [folder / n] puts before a name it keeps is the same
    for every name. *)
Lemma to_str_truediv_prefix folder :
  ∃ pre, (pre = [] ∨ ∃ d, pre = d ++ ["/"%char])
         ∧ ∀ n, ("/"%char ∉ n) -> n ≠ [] -> n ≠ ["."%char] ->
                pathlib.to_str (pathlib.truediv folder n) = pre ++ n.
Proof.
  pose proof (parse_path_root folder) as Hroot.
  destruct (pathlib._parse_path folder) as [root tail] eqn:Hparse.
  simpl in Hroot.
  exists (if decide (tail = []) then root
          else root ++ Py.join ["/"%char] tail ++ ["/"%char]).
  split.
  - destruct (decide (tail = [])).
    + destruct Hroot as [->|[->| ->]]; [by left|right; by exists []|].
      right. by exists ["/"%char].
    + right. exists (root ++ Py.join ["/"%char] tail).
      by rewrite <- (assoc_L (++)).
  - intros n Hn Hn0 Hn1. unfold pathlib.to_str.
    rewrite parse_path_truediv by done. rewrite Hparse. simpl.
    rewrite filter_cons_True by done. rewrite filter_nil.
    unfold posixpath.sep. destruct (decide (tail = [])) as [->|Htail].
    + simpl. rewrite bool_decide_eq_false_2; [done|].
      intros Heq. by apply app_eq_nil in Heq as [_ ?].
    + rewrite join_snoc by done.
      rewrite bool_decide_eq_false_2; [by rewrite <- !(assoc_L (++))|].
      intros Heq. apply app_eq_nil in Heq as [_ Heq].
      apply app_eq_nil in Heq as [_ Heq]. done.
Qed.

Lemma get_file_operations_safe fs doc folder ops old new i :
  get_file_operations doc folder fs = Some ops ->
  (old, new, i) ∈ ops ->
  (i < length doc)%nat
  ∧ exists_ fs old = true ∧ exists_ fs new = false ∧ old ≠ new.
Proof.
  intros Hplan Hin. unfold get_file_operations in Hplan.
  apply (plan_from_elem _ _ _ _ _ Hplan) in Hin as (k & it & Hk & Hp).
  pose proof (plan_item_Some _ _ _ _ _ Hp) as [Hidx _].
  unfold op_idx in Hidx. simpl in Hidx. subst i.
  apply plan_item_Some_iff in Hp as (u & Hu & Hne & Hfn & Hex & Hfree & Ho).
  injection Ho as -> ->.
  split; [by apply lookup_lt_Some in Hk|]. split; [done|]. split; [done|].
  intros Heq. by apply (truediv_normalized_ne folder u).
Qed.

(** X4.  Every operation the planner returns names a record of the
    document, has a source that exists and a destination that does not
    exist when the plan is made, and its two paths differ. *)
Theorem planned_operation_safe fs doc folder ops old new i :
  get_file_operations doc folder fs = Some ops ->
  (old, new, i) ∈ ops ->
  (i < length doc)%nat
  ∧ exists_ fs old = true ∧ exists_ fs new = false ∧ old ≠ new.
Proof. apply get_file_operations_safe. Qed.

(** X5.  The plan follows the order of the document: the record indices
    of its operations grow strictly, so no record has two operations and
    the plan is no longer than the document. *)
Theorem plan_in_document_order fs doc folder ops :
  get_file_operations doc folder fs = Some ops ->
  (∀ j k o o', (j < k)%nat -> ops !! j = Some o -> ops !! k = Some o' ->
               (op_idx o < op_idx o')%nat)
  ∧ NoDup (op_idx <$> ops)
  ∧ (length ops <= length doc)%nat.
Proof.
  intros Hplan. split; [|split].
  - intros j k o o' Hjk Hj Hk.
    by destruct (plan_from_sorted _ _ _ _ _ Hplan j k o o').
  - by apply get_file_operations_sound in Hplan as [_ ?].
  - by apply plan_from_length in Hplan.
Qed.

(** X6.  A record gets an operation exactly when its [image_url] is a
    non-empty string whose file name is not normalised, the file of that
    name is in the folder and the file of the normalised name is not; the
    operation is then the rename of the one to the other. *)
Theorem planned_iff fs doc folder ops i it :
  get_file_operations doc folder fs = Some ops ->
  doc !! i = Some it ->
  ∀ old new,
    (old, new, i) ∈ ops
    <-> ∃ u, it !! image_url = Some (VStr u)
             ∧ u ≠ []
             ∧ url_filename u ≠ normalize_filename (url_filename u)
             ∧ old = pathlib.to_str (pathlib.truediv folder (url_filename u))
             ∧ new = pathlib.to_str
                       (pathlib.truediv folder
                          (normalize_filename (url_filename u)))
             ∧ exists_ fs old = true
             ∧ exists_ fs new = false.
Proof.
  intros Hplan Hi old new. unfold get_file_operations in Hplan.
  rewrite (plan_from_elem _ _ _ _ _ Hplan). split.
  - intros (k & it' & Hk & Hp).
    pose proof (plan_item_Some _ _ _ _ _ Hp) as [Hidx _].
    unfold op_idx in Hidx. simpl in Hidx. subst k.
    rewrite Hi in Hk. injection Hk as <-.
    apply plan_item_Some_iff in Hp as (u & Hu & Hne & Hfn & Hex & Hfree & Ho).
    injection Ho as -> ->. exists u. auto 10.
  - intros (u & Hu & Hne & Hfn & -> & -> & Hex & Hfree).
    exists i, it. split; [done|]. apply plan_item_Some_iff.
    exists u. auto 10.
Qed.

(** X7.  One record whose [image_url] is truthy and not a string makes
    the planner raise, whatever the other records and the file system
    are: no plan is returned. *)
Theorem get_file_operations_raises_on_non_string fs doc folder it :
  it ∈ doc -> it !! image_url = Some (VOther true) ->
  get_file_operations doc folder fs = None.
Proof.
  intros Hin Hurl. unfold get_file_operations.
  apply plan_from_None_iff. eauto.
Qed.

(** X8.  When the data folder exists, the two paths of every planned
    operation are in one directory: they are one prefix, empty or ending
    in [/], followed by the file name of the record's [image_url] and by
    its normalised form. *)
Theorem planned_rename_stays_in_folder fs doc folder ops :
  get_file_operations doc folder fs = Some ops ->
  exists_ fs (pathlib.to_str folder) = true ->
  ∃ pre, (pre = [] ∨ ∃ d, pre = d ++ ["/"%char])
         ∧ ∀ old new i, (old, new, i) ∈ ops ->
             ∃ it u, doc !! i = Some it
                     ∧ it !! image_url = Some (VStr u)
                     ∧ old = pre ++ url_filename u
                     ∧ new = pre ++ normalize_filename (url_filename u)
                     ∧ ("/"%char ∉ url_filename u)
                     ∧ ("/"%char ∉ normalize_filename (url_filename u)).
Proof.
  intros Hplan Hfolder.
  destruct (to_str_truediv_prefix folder) as (pre & Hpre & Hstr).
  exists pre. split; [done|]. intros old new i Hin.
  unfold get_file_operations in Hplan.
  apply (plan_from_elem _ _ _ _ _ Hplan) in Hin as (k & it & Hk & Hp).
  pose proof (plan_item_Some _ _ _ _ _ Hp) as [Hidx _].
  unfold op_idx in Hidx. simpl in Hidx. subst i.
  apply plan_item_Some_iff in Hp as (u & Hu & Hne & Hfn & Hex & Hfree & Ho).
  injection Ho as -> ->.
  destruct (url_filename_kept u Hfn) as (Hs & H0 & H1).
  exists it, u. split; [done|]. split; [done|].
  split; [by apply Hstr|].
  assert (¬ (normalize_filename (url_filename u) = []
             ∨ normalize_filename (url_filename u) = ["."%char])) as Hkeep.
  { intros Hdrop. rewrite (to_str_truediv_dropped _ _ Hdrop) in Hfree.
    congruence. }
  split; [|split; [done|apply normalize_filename_no_seps]].
  apply Hstr.
  - apply normalize_filename_no_seps.
  - intros ?. apply Hkeep. by left.
  - intros ?. apply Hkeep. by right.
Qed.

End planner_extras.

Lemma get_file_operations_raises_on_non_string_witness :
  get_file_operations
    [Examples.record "imgs/a_1.png"; {[ image_url := VOther true ]}]
    (str "imgs") Examples.two_hashes_fs
  = None.
Proof.
  apply (get_file_operations_raises_on_non_string
           Examples.two_hashes_fs _ (str "imgs")
           {[ image_url := VOther true ]}).
  - apply elem_of_cons. right. apply elem_of_cons. by left.
  - vm_compute. reflexivity.
Defined.

(** ** The executor *)

Section executor_extras.
Context {FS : Type} `{!OS FS}.
Implicit Types (fs : FS) (doc : document) (o : operation)
         (ops : list operation) (it : item) (st : state FS).

Lemma run_operation_has_url st o i :
  has_url (st_json_data st) i -> has_url (st_json_data (run_operation st o)) i.
Proof.
  intros (it & u & Hit & Hu).
  destruct (decide (i = op_idx o)) as [->|Hne].
  - destruct (run_operation_calls st o) as ([] & _ & Hf & Ht).
    + eexists _, _. split; [by apply (Ht eq_refl it u)|].
      by apply lookup_insert_eq.
    + rewrite (Hf eq_refl). by exists it, u.
  - exists it, u. by rewrite run_operation_other.
Qed.

Lemma run_operation_count_url st o :
  has_url (st_json_data st) (op_idx o) ->
  ∃ ok, st_calls (run_operation st o)
        = st_calls st ++ [CallRename (op_old o) (op_new o) ok]
        ∧ st_success_count (run_operation st o)
          = (st_success_count st + if ok then 1 else 0)%nat.
Proof.
  intros (it & u & Hit & Hu). destruct o as [[old new] idx].
  unfold run_operation, op_old, op_new, op_idx in *. simpl in *.
  destruct (rename old new (st_fs st)).
  - exists true. rewrite (patch_record_str _ _ _ _ Hit Hu). simpl.
    split; [done|lia].
  - exists false. simpl. split; [done|lia].
Qed.

Lemma run_operations_count ops : ∀ st,
  Forall (fun o => has_url (st_json_data st) (op_idx o)) ops ->
  (st_success_count (run_operations ops st)
   + length (filter (fun c => rename_succeeded c = true) (st_calls st))
   = st_success_count st
     + length (filter (fun c => rename_succeeded c = true)
                      (st_calls (run_operations ops st))))%nat.
Proof.
  induction ops as [|o ops IH]; intros st Hall; [simpl; lia|].
  apply Forall_cons in Hall as [Ho Hall].
  rewrite run_operations_cons.
  destruct (run_operation_count_url st o Ho) as (ok & Hc & Hn).
  specialize (IH (run_operation st o)).
  rewrite Hc, Hn, filter_app, length_app in IH.
  assert (length (filter (fun c => rename_succeeded c = true)
                         [CallRename (op_old o) (op_new o) ok])
          = if ok then 1 else 0)%nat as Hone by (by destruct ok).
  rewrite Hone in IH.
  assert (Forall (fun o' => has_url (st_json_data (run_operation st o))
                                    (op_idx o')) ops) as Hall'.
  { eapply Forall_impl; [exact Hall|]. intros o'.
    apply run_operation_has_url. }
  specialize (IH Hall'). lia.
Qed.

Lemma same_but_image_url_refl it : same_but_image_url it it.
Proof. by split. Qed.

Lemma same_but_image_url_trans it1 it2 it3 :
  same_but_image_url it1 it2 -> same_but_image_url it2 it3 ->
  same_but_image_url it1 it3.
Proof.
  intros [Hd1 Hk1] [Hd2 Hk2]. split; [congruence|].
  intros k Hk. rewrite Hk2, Hk1 by done. done.
Qed.

Lemma patch_record_frame json_idx doc doc' j it' :
  patch_record json_idx doc = Some doc' -> doc' !! j = Some it' ->
  ∃ it, doc !! j = Some it ∧ same_but_image_url it it'.
Proof.
  unfold patch_record. intros Hp Hj.
  destruct (doc !! json_idx) as [it0|] eqn:Hit0; [|done].
  destruct (it0 !! image_url) as [v|] eqn:Hv; [|done].
  assert (∀ v', doc' = <[json_idx := <[image_url := v']> it0]> doc ->
                ∃ it, doc !! j = Some it ∧ same_but_image_url it it') as Haux.
  { intros v' ->. destruct (decide (j = json_idx)) as [->|Hne].
    - rewrite list_lookup_insert_eq in Hj by (by eapply lookup_lt_Some).
      injection Hj as <-. exists it0. split; [done|]. split.
      + rewrite dom_insert_L. apply elem_of_dom_2 in Hv.
        apply subseteq_union_1_L. by apply singleton_subseteq_l.
      + intros k Hk. by rewrite lookup_insert_ne.
    - rewrite list_lookup_insert_ne in Hj by done.
      exists it'. split; [done|]. apply same_but_image_url_refl. }
  destruct v as [u|[]]; [| done |]; simplify_eq; by eapply Haux.
Qed.

Lemma run_operation_frame st o j it' :
  st_json_data (run_operation st o) !! j = Some it' ->
  ∃ it, st_json_data st !! j = Some it ∧ same_but_image_url it it'.
Proof.
  destruct o as [[old new] idx]. unfold run_operation. simpl.
  destruct (rename old new (st_fs st)); simpl.
  - destruct (patch_record idx (st_json_data st)) as [doc'|] eqn:Hp; simpl.
    + intros Hj. by eapply patch_record_frame.
    + intros Hj. exists it'. split; [done|apply same_but_image_url_refl].
  - intros Hj. exists it'. split; [done|apply same_but_image_url_refl].
Qed.

Lemma run_operations_frame ops : ∀ st j it',
  st_json_data (run_operations ops st) !! j = Some it' ->
  ∃ it, st_json_data st !! j = Some it ∧ same_but_image_url it it'.
Proof.
  induction ops as [|o ops IH]; intros st j it' Hj.
  - exists it'. split; [done|apply same_but_image_url_refl].
  - rewrite run_operations_cons in Hj.
    apply IH in Hj as (it1 & Hj & H1).
    apply run_operation_frame in Hj as (it & Hj & H0).
    exists it. split; [done|]. by eapply same_but_image_url_trans.
Qed.

(** The calls of the part after the confirmation: the renames of the
    operations, then nothing, a failed backup, or a backup and a write. *)
Lemma execute_calls json_file_path ops st c :
  c ∈ st_calls (final_state (execute json_file_path ops st)) ->
  c ∈ st_calls (run_operations ops st)
  ∨ (∃ ok, c = CallCopy2 json_file_path (json_file_path ++ str ".backup") ok)
  ∨ (∃ ok, c = CallDump json_file_path
                 (st_json_data (run_operations ops st)) ok).
Proof.
  unfold execute, save_json_data.
  destruct (0 <? st_success_count (run_operations ops st))%nat; [|by left].
  destruct (copy2 _ _ _); simpl.
  - destruct (dump _ _ _); simpl;
      rewrite !elem_of_app, !list_elem_of_singleton;
      intros [[?| ->]| ->]; eauto.
  - rewrite elem_of_app, list_elem_of_singleton. intros [?| ->]; eauto.
Qed.

(** X9.  For a plan of the planner, the counter of successes at the end
    of the loop is the number of renames that succeeded, and it is at most
    the number of operations. *)
Theorem success_count_counts_renames fs doc folder ops :
  get_file_operations doc folder fs = Some ops ->
  st_success_count (run_operations ops (State fs doc 0%nat []))
  = length (filter (fun c => rename_succeeded c = true)
                   (st_calls (run_operations ops (State fs doc 0%nat []))))
  ∧ (st_success_count (run_operations ops (State fs doc 0%nat []))
     <= length ops)%nat.
Proof.
  intros Hplan.
  assert (Forall (fun o => has_url doc (op_idx o)) ops) as Hall.
  { apply get_file_operations_sound in Hplan as [Hall _].
    eapply Forall_impl; [exact Hall|].
    intros o (it & u & Hit & Hu & _). by exists it, u. }
  pose proof (run_operations_count ops (State fs doc 0%nat []) Hall) as Hc.
  simpl in Hc. split; [lia|].
  pose proof (run_operations_calls_length ops (State fs doc 0%nat [])) as Hl.
  simpl in Hl.
  pose proof (length_filter (fun c => rename_succeeded c = true)
                (st_calls (run_operations ops (State fs doc 0%nat [])))).
  lia.
Qed.

(** X10.  Whatever the operations and the file system do, the loop keeps
    the number and the order of the records, and a record at the end
    differs from the record at the start, at the same index, in nothing
    but the value of [image_url]: no key is added or removed and no other
    value is changed. *)
Theorem run_operations_changes_image_url_only ops st :
  length (st_json_data (run_operations ops st)) = length (st_json_data st)
  ∧ ∀ j it', st_json_data (run_operations ops st) !! j = Some it' ->
             ∃ it, st_json_data st !! j = Some it
                   ∧ dom it' = dom it
                   ∧ ∀ k, k ≠ image_url -> it' !! k = it !! k.
Proof.
  split; [apply run_operations_length|].
  intros j it' Hj. apply run_operations_frame in Hj as (it & Hj & Hd & Hk).
  by exists it.
Qed.

(** X11.  [main] changes nothing and makes no call when the JSON file or
    the folder does not exist, in a dry run, and when the answer to the
    prompt is neither [y] nor [yes] in some case. *)
Theorem main_needs_confirmation json_file data_folder dry_run response fs :
  exists_ fs json_file = false ∨ exists_ fs data_folder = false
  ∨ dry_run = true
  ∨ ¬ (Py.lower response = str "y" ∨ Py.lower response = str "yes") ->
  st_fs (final_state (main json_file data_folder dry_run response fs)) = fs
  ∧ st_calls (final_state (main json_file data_folder dry_run response fs))
    = [].
Proof.
  intros Hcase. unfold main.
  destruct (exists_ fs json_file) eqn:Hj; simpl; [|done].
  destruct (exists_ fs data_folder) eqn:Hf; simpl; [|done].
  apply perform_normalization_no_effect.
  destruct Hcase as [?|[?|[?|?]]]; [congruence..|by left|by right; left].
Qed.

(** X12.  Whatever its arguments, [main] renames only from paths that
    existed and to paths that did not exist when it started, and the only
    other calls it makes are the copy of the JSON file to its path
    followed by [.backup] and the write of the JSON file. *)
Theorem main_calls_only_planned json_file data_folder dry_run response fs c :
  c ∈ st_calls (final_state (main json_file data_folder dry_run response fs)) ->
  match c with
  | CallRename old new _ =>
      exists_ fs old = true ∧ exists_ fs new = false ∧ old ≠ new
  | CallCopy2 src dst _ =>
      src = json_file ∧ dst = json_file ++ str ".backup"
  | CallDump path _ _ => path = json_file
  end.
Proof.
  unfold main.
  destruct (exists_ fs json_file); simpl; [|by rewrite elem_of_nil].
  destruct (exists_ fs data_folder); simpl; [|by rewrite elem_of_nil].
  unfold perform_normalization.
  destruct (load json_file fs) as [doc| | |]; simpl;
    try by rewrite elem_of_nil.
  destruct (get_file_operations doc data_folder fs) as [ops|] eqn:Hplan;
    simpl; [|by rewrite elem_of_nil].
  case_bool_decide; simpl; [by rewrite elem_of_nil|].
  destruct dry_run; simpl; [by rewrite elem_of_nil|].
  case_bool_decide; simpl; [|by rewrite elem_of_nil].
  intros Hc. apply execute_calls in Hc as [Hc|[[ok ->]|[ok ->]]]; [|done..].
  destruct (run_operations_calls ops (State fs doc 0%nat []))
    as (oks & _ & Hcalls).
  rewrite Hcalls in Hc. simpl in Hc.
  apply list_elem_of_lookup in Hc as [k Hk].
  apply lookup_zip_with_Some in Hk as (o & ok & -> & Ho & _).
  destruct o as [[old new] i].
  apply list_elem_of_lookup_2 in Ho.
  by destruct (get_file_operations_safe _ _ _ _ _ _ _ Hplan Ho) as (_ & ? & ? & ?).
Qed.

End executor_extras.

(** ** The clean-up pipeline *)

Section extract_more.
Implicit Types (doc : document) (it : item) (refs acc : gset pystr).

Lemma extract_item_None_iff acc it :
  extract_item acc it = None <-> it !! image_url = Some (VOther true).
Proof.
  unfold extract_item.
  destruct (it !! image_url) as [[u|[]]|]; simpl; split; try done.
  repeat case_match; done.
Qed.

Lemma extract_loop_None_iff doc : ∀ acc,
  extract_loop acc doc = None
  <-> ∃ it, it ∈ doc ∧ it !! image_url = Some (VOther true).
Proof.
  induction doc as [|it doc IH]; intros acc; simpl.
  - split; [done|]. intros (it & Hin & _). by apply elem_of_nil in Hin.
  - destruct (extract_item acc it) as [acc'|] eqn:Hit.
    + assert (it !! image_url ≠ Some (VOther true)) as Hok.
      { intros Hbad. apply (extract_item_None_iff acc) in Hbad. congruence. }
      rewrite IH. split.
      * intros (it' & Hin & Hbad). exists it'. split; [by right|done].
      * intros (it' & Hin & Hbad).
        apply elem_of_cons in Hin as [->|Hin]; [done|]. by exists it'.
    + split; [|done]. intros _. exists it. split; [by left|].
      by apply (extract_item_None_iff acc).
Qed.

Lemma extract_referenced_images_elem doc refs :
  extract_referenced_images doc = Some refs ->
  ∀ n, n ∈ refs <->
       ∃ it u, it ∈ doc ∧ it !! image_url = Some (VStr u)
               ∧ trailing_segment u n ∧ n ≠ [].
Proof.
  intros Hrefs n. unfold extract_referenced_images in Hrefs.
  rewrite (extract_loop_Some _ _ _ Hrefs n). split; [|by right].
  intros [Hin|?]; [|done]. by apply not_elem_of_empty in Hin.
Qed.

(** X13.  [extract_referenced_images] raises (the [AttributeError] of
    [replace]) exactly when some record has an [image_url] that is truthy
    and not a string. *)
Theorem extract_referenced_images_raises_iff doc :
  extract_referenced_images doc = None
  <-> ∃ it, it ∈ doc ∧ it !! image_url = Some (VOther true).
Proof. apply extract_loop_None_iff. Qed.

(** X14.  The referenced names depend on the set of records only, not on
    their order or their number of copies; and the names of two documents
    put one after the other are the union of the names of each. *)
Theorem extract_referenced_images_set_like doc1 doc2 :
  ((∀ it, it ∈ doc1 <-> it ∈ doc2) ->
   extract_referenced_images doc1 = extract_referenced_images doc2)
  ∧ (∀ refs1 refs2,
       extract_referenced_images doc1 = Some refs1 ->
       extract_referenced_images doc2 = Some refs2 ->
       extract_referenced_images (doc1 ++ doc2) = Some (refs1 ∪ refs2)).
Proof.
  split.
  - intros Hsame.
    destruct (extract_referenced_images doc1) as [r1|] eqn:H1;
      destruct (extract_referenced_images doc2) as [r2|] eqn:H2.
    + f_equal. apply set_eq. intros n.
      rewrite (extract_referenced_images_elem _ _ H1 n).
      rewrite (extract_referenced_images_elem _ _ H2 n).
      by setoid_rewrite Hsame.
    + apply extract_loop_None_iff in H2 as (it & Hin & Hbad).
      assert (extract_referenced_images doc1 = None) as Hnone.
      { apply extract_loop_None_iff. exists it. by rewrite Hsame. }
      congruence.
    + apply extract_loop_None_iff in H1 as (it & Hin & Hbad).
      assert (extract_referenced_images doc2 = None) as Hnone.
      { apply extract_loop_None_iff. exists it. by rewrite <- Hsame. }
      congruence.
    + done.
  - intros refs1 refs2 H1 H2.
    destruct (extract_referenced_images (doc1 ++ doc2)) as [r|] eqn:H12.
    + f_equal. apply set_eq. intros n.
      rewrite elem_of_union.
      rewrite (extract_referenced_images_elem _ _ H1 n).
      rewrite (extract_referenced_images_elem _ _ H2 n).
      rewrite (extract_referenced_images_elem _ _ H12 n).
      setoid_rewrite elem_of_app. split.
      * intros (it & u & [Hin|Hin] & H); [left|right]; exists it, u; auto.
      * intros [(it & u & Hin & H)|(it & u & Hin & H)]; exists it, u; auto.
    + exfalso.
      apply extract_loop_None_iff in H12 as (it & Hin & Hbad).
      apply elem_of_app in Hin as [Hin|Hin].
      * assert (extract_referenced_images doc1 = None)
          by (apply extract_loop_None_iff; eauto).
        congruence.
      * assert (extract_referenced_images doc2 = None)
          by (apply extract_loop_None_iff; eauto).
        congruence.
Qed.

End extract_more.

Section deletion_extras.
Context {FS : Type} `{!OS FS} `{!Folders FS}.
Implicit Types (fs : FS) (folder : pystr) (refs : gset pystr)
         (st : cleanup_state FS) (images : list pystr).

Lemma delete_images_cons folder image images st :
  delete_images folder (image :: images) st
  = delete_images folder images (delete_image folder st image).
Proof. done. Qed.

(** The loop tries every image once, in order, and counts the successes. *)
Lemma delete_images_calls folder images : ∀ st,
  ∃ oks,
    length oks = length images
    ∧ cl_calls (delete_images folder images st)
      = cl_calls st
        ++ zip_with (fun n ok =>
                       CallUnlink (pathlib.to_str (pathlib.truediv folder n)) ok)
                    images oks
    ∧ cl_deleted_count (delete_images folder images st)
      = (cl_deleted_count st + length (filter (fun ok => ok = true) oks))%nat.
Proof.
  induction images as [|n images IH]; intros st.
  - exists []. simpl. rewrite app_nil_r. split; [done|]. split; [done|lia].
  - rewrite delete_images_cons.
    destruct (IH (delete_image folder st n)) as (oks & Hlen & Hc & Hn).
    unfold delete_image in *.
    destruct (unlink (pathlib.to_str (pathlib.truediv folder n)) (cl_fs st));
      simpl in *.
    + exists (true :: oks). split; [simpl; lia|].
      split; [by rewrite Hc, <- app_assoc|].
      rewrite Hn, filter_cons_True by done. simpl. lia.
    + exists (false :: oks). split; [simpl; lia|].
      split; [by rewrite Hc, <- app_assoc|].
      by rewrite Hn, filter_cons_False by done.
Qed.

Lemma zip_with_unlink_paths folder images (oks : list bool) :
  length oks = length images ->
  unlink_path
    <$> zip_with (fun n ok =>
                    CallUnlink (pathlib.to_str (pathlib.truediv folder n)) ok)
                 images oks
  = (fun n => pathlib.to_str (pathlib.truediv folder n)) <$> images.
Proof.
  revert oks. induction images as [|n images IH]; intros [|ok oks] Hlen;
    simpl in *; try done.
  f_equal. apply IH. lia.
Qed.

Lemma zip_with_unlink_succeeded folder images (oks : list bool) :
  length oks = length images ->
  length (filter (fun c => unlink_succeeded c = true)
            (zip_with (fun n ok =>
                         CallUnlink (pathlib.to_str (pathlib.truediv folder n)) ok)
                      images oks))
  = length (filter (fun ok => ok = true) oks).
Proof.
  revert oks. induction images as [|n images IH]; intros [|ok oks] Hlen;
    simpl in *; try done.
  destruct ok.
  - rewrite !filter_cons_True by done. simpl. f_equal. apply IH. lia.
  - rewrite !filter_cons_False by done. apply IH. lia.
Qed.

(** What [remove_unused_images] does once the folder is listed, the run is
    not dry and the answer is yes. *)
Lemma remove_unused_images_confirmed folder refs response fs entries unused :
  exists_ fs folder = true ->
  iterdir fs folder = Some entries ->
  unused_images (Some entries) refs = Some unused ->
  Py.lower response = str "y" ∨ Py.lower response = str "yes" ->
  remove_unused_images folder refs false response fs
  = CleanupReturned
      (delete_images folder (elements unused) (CleanupState fs 0%nat [])).
Proof.
  intros Hex Hls Hun Hyes. unfold remove_unused_images, scan.
  rewrite Hex, Hls. simpl. unfold unused_images in Hun. simpl in Hun.
  injection Hun as <-. case_bool_decide as Hempty.
  - rewrite Hempty, elements_empty. done.
  - rewrite bool_decide_eq_true_2; [done|]. rewrite !elem_of_cons. tauto.
Qed.

(** Every file [remove_unused_images] tries to delete is an unused image
    of the listing of the folder. *)
Lemma remove_unused_images_calls folder refs dry_run response fs path ok :
  CallUnlink path ok
    ∈ cl_calls (cleanup_final
                  (remove_unused_images folder refs dry_run response fs)) ->
  ∃ entries unused n,
    iterdir fs folder = Some entries
    ∧ unused_images (Some entries) refs = Some unused
    ∧ n ∈ unused
    ∧ path = pathlib.to_str (pathlib.truediv folder n).
Proof.
  unfold remove_unused_images, scan.
  destruct (exists_ fs folder); [cbn [negb]|simpl; by rewrite elem_of_nil].
  destruct (iterdir fs folder) as [entries|] eqn:Hls;
    [|simpl; by rewrite elem_of_nil].
  destruct (get_images_in_folder (Some entries)) as [images|] eqn:Him;
    [|simpl; by rewrite elem_of_nil].
  case_bool_decide; [simpl; by rewrite elem_of_nil|].
  destruct dry_run; [simpl; by rewrite elem_of_nil|].
  case_bool_decide; [|simpl; by rewrite elem_of_nil].
  cbn [negb cleanup_final].
  destruct (delete_images_calls folder (elements (images ∖ refs))
              (CleanupState fs 0%nat [])) as (oks & _ & -> & _).
  simpl. intros Hin. apply list_elem_of_lookup in Hin as [k Hk].
  apply lookup_zip_with_Some in Hk as (n & ok' & Heq & Hn & _).
  injection Heq as -> ->.
  exists entries, (images ∖ refs), n. split; [done|].
  split; [unfold unused_images; by rewrite Him|]. split; [|done].
  apply elem_of_elements. by eapply list_elem_of_lookup_2.
Qed.

(** X15.  The clean-up never deletes a picture the catalogue refers to:
    every file [main] of imgnormalizer.py tries to delete is a file of the
    listing of the folder, with an image extension, whose name is the
    trailing segment of no [image_url] of the document. *)
Theorem cleanup_never_deletes_referenced
        json_file folder dry_run response fs doc path ok :
  load json_file fs = Loaded doc ->
  CallUnlink path ok
    ∈ cl_calls (cleanup_final
                  (cleanup_main json_file folder dry_run response fs)) ->
  ∃ entries e,
    iterdir fs folder = Some entries
    ∧ e ∈ entries
    ∧ entry_is_file e = true
    ∧ has_image_extension (entry_name e)
    ∧ path = pathlib.to_str (pathlib.truediv folder (entry_name e))
    ∧ ∀ it u, it ∈ doc -> it !! image_url = Some (VStr u) ->
              ¬ trailing_segment u (entry_name e).
Proof.
  intros Hload. unfold cleanup_main. rewrite Hload.
  destruct (extract_referenced_images doc) as [refs|] eqn:Hrefs; simpl;
    [|by rewrite elem_of_nil].
  destruct (scan fs folder) as [[entries0|]|];
    try (simpl; by rewrite elem_of_nil).
  intros Hin.
  apply remove_unused_images_calls in Hin
    as (entries & unused & n & Hls & Hun & Hn & ->).
  unfold unused_images in Hun.
  destruct (get_images_in_folder (Some entries)) as [images|] eqn:Him;
    [|done].
  injection Hun as <-. apply elem_of_difference in Hn as [Himg Hnot].
  apply (get_images_in_folder_Some _ _ Him) in Himg
    as (e & He & <- & Hfile & Hext).
  exists entries, e. do 5 (split; [done|]).
  intros it u Hit Hu Hseg. apply Hnot.
  apply (extract_referenced_images_elem _ _ Hrefs).
  exists it, u. do 3 (split; [done|]).
  destruct Hext as (stem & x & ext & -> & Hstem & _).
  by destruct stem.
Qed.

(** X16.  The clean-up deletes nothing and changes nothing in a dry run
    and when the answer to the prompt is neither [y] nor [yes] in some
    case. *)
Theorem cleanup_needs_confirmation json_file folder dry_run response fs :
  dry_run = true
  ∨ ¬ (Py.lower response = str "y" ∨ Py.lower response = str "yes") ->
  cl_fs (cleanup_final (cleanup_main json_file folder dry_run response fs))
  = fs
  ∧ cl_calls (cleanup_final
                (cleanup_main json_file folder dry_run response fs)) = []
  ∧ cl_deleted_count
      (cleanup_final (cleanup_main json_file folder dry_run response fs))
    = 0%nat.
Proof.
  intros Hcase. unfold cleanup_main, remove_unused_images.
  destruct (load json_file fs); try done.
  destruct (extract_referenced_images data); [|done].
  destruct (scan fs folder) as [[entries|]|]; try done.
  destruct (get_images_in_folder (Some entries)); [|done].
  case_bool_decide; [done|]. destruct dry_run; [done|].
  case_bool_decide as Hyes; [|done].
  destruct Hcase as [?|Hno]; [done|]. exfalso. apply Hno.
  rewrite !elem_of_cons, elem_of_nil in Hyes. tauto.
Qed.

(** X17.  Once confirmed, [remove_unused_images] tries to delete every
    unused image exactly once, whether or not the deletions before it
    succeeded, and its count of deleted files is the number of deletions
    that succeeded. *)
Theorem remove_unused_images_tries_each_once
        folder refs response fs entries unused :
  exists_ fs folder = true ->
  iterdir fs folder = Some entries ->
  unused_images (Some entries) refs = Some unused ->
  Py.lower response = str "y" ∨ Py.lower response = str "yes" ->
  let st := cleanup_final
              (remove_unused_images folder refs false response fs) in
  unlink_path <$> cl_calls st
  = (fun n => pathlib.to_str (pathlib.truediv folder n)) <$> elements unused
  ∧ length (cl_calls st) = size unused
  ∧ cl_deleted_count st
    = length (filter (fun c => unlink_succeeded c = true) (cl_calls st)).
Proof.
  intros Hex Hls Hun Hyes st. unfold st.
  rewrite (remove_unused_images_confirmed _ _ _ _ _ _ Hex Hls Hun Hyes).
  simpl.
  destruct (delete_images_calls folder (elements unused)
              (CleanupState fs 0%nat [])) as (oks & Hlen & -> & ->).
  simpl. split; [by apply zip_with_unlink_paths|]. split.
  - rewrite length_zip_with. unfold size, set_size. simpl. lia.
  - by rewrite zip_with_unlink_succeeded.
Qed.

End deletion_extras.

(** X18.  Once the unused images are gone from a folder, a second look
    finds no unused image: the unused images of the listing without the
    unused images of the listing are none. *)
Theorem unused_images_after_deletion
        (entries : list dir_entry) (refs unused : gset pystr) :
  unused_images (Some entries) refs = Some unused ->
  unused_images
    (Some (filter (fun e => entry_name e ∉ unused) entries)) refs
  = Some ∅.
Proof.
  unfold unused_images. intros Hun.
  destruct (get_images_in_folder (Some entries)) as [images|] eqn:Him;
    [|done].
  injection Hun as <-.
  destruct (get_images_in_folder
              (Some (filter (fun e => entry_name e ∉ images ∖ refs) entries)))
    as [images'|] eqn:Him'; [|done].
  f_equal. apply set_eq. intros n. split; [|by rewrite elem_of_empty].
  rewrite elem_of_difference. intros [Hn Hnot]. exfalso.
  apply (get_images_in_folder_Some _ _ Him') in Hn
    as (e & He & <- & Hfile & Hext).
  apply list_elem_of_filter in He as [Hgone He]. apply Hgone.
  apply elem_of_difference. split; [|done].
  apply (get_images_in_folder_Some _ _ Him). by exists e.
Qed.

(** ** The extras on examples *)

Lemma planned_operation_safe_witness :
  (0 < length Examples.shared_picture)%nat
  ∧ exists_ Examples.shared_picture_fs (str "imgs/a_1.png") = true
  ∧ exists_ Examples.shared_picture_fs (str "imgs/a.png") = false
  ∧ str "imgs/a_1.png" ≠ str "imgs/a.png".
Proof.
  apply (planned_operation_safe Examples.shared_picture_fs
           Examples.shared_picture (str "imgs") Examples.shared_picture_ops).
  - vm_compute. reflexivity.
  - apply elem_of_cons. left. reflexivity.
Defined.

Lemma plan_in_document_order_witness :
  NoDup (op_idx <$> Examples.shared_picture_ops)
  ∧ (length Examples.shared_picture_ops <= length Examples.shared_picture)%nat.
Proof.
  destruct (plan_in_document_order Examples.shared_picture_fs
              Examples.shared_picture (str "imgs") Examples.shared_picture_ops)
    as (_ & Hnd & Hlen); [vm_compute; reflexivity|].
  split; [exact Hnd|exact Hlen].
Defined.

Lemma planned_iff_witness :
  (str "imgs/b_2.png", str "imgs/b.png", 2%nat) ∈ Examples.shared_picture_ops.
Proof.
  apply (planned_iff Examples.shared_picture_fs Examples.shared_picture
           (str "imgs") Examples.shared_picture_ops 2
           (Examples.record "imgs/b_2.png"));
    [vm_compute; reflexivity|reflexivity|].
  exists (str "imgs/b_2.png").
  split; [reflexivity|]. split; [done|]. split; [by vm_compute|].
  split; [vm_compute; reflexivity|]. split; [vm_compute; reflexivity|].
  split; vm_compute; reflexivity.
Defined.

Lemma planned_rename_stays_in_folder_witness :
  ∃ pre, (pre = [] ∨ ∃ d, pre = d ++ ["/"%char])
         ∧ ∃ it u, Examples.shared_picture !! 1%nat = Some it
                   ∧ it !! image_url = Some (VStr u)
                   ∧ str "imgs/a_1.png" = pre ++ url_filename u
                   ∧ str "imgs/a.png"
                     = pre ++ normalize_filename (url_filename u).
Proof.
  destruct (planned_rename_stays_in_folder Examples.shared_picture_fs
              Examples.shared_picture (str "imgs") Examples.shared_picture_ops)
    as (pre & Hpre & Hops); [vm_compute; reflexivity..|].
  exists pre. split; [exact Hpre|].
  destruct (Hops (str "imgs/a_1.png") (str "imgs/a.png") 1%nat)
    as (it & u & Hit & Hu & Hold & Hnew & _).
  { apply elem_of_cons. right. apply elem_of_cons. left. reflexivity. }
  exists it, u. split; [exact Hit|]. split; [exact Hu|].
  split; [exact Hold|exact Hnew].
Defined.

Lemma success_count_counts_renames_witness :
  st_success_count
    (run_operations Examples.shared_picture_ops
       (State Examples.shared_picture_fs Examples.shared_picture 0%nat []))
  = length (filter (fun c => rename_succeeded c = true)
              (st_calls
                 (run_operations Examples.shared_picture_ops
                    (State Examples.shared_picture_fs Examples.shared_picture
                           0%nat [])))).
Proof.
  apply (success_count_counts_renames Examples.shared_picture_fs
           Examples.shared_picture (str "imgs") Examples.shared_picture_ops).
  vm_compute. reflexivity.
Defined.

Lemma main_needs_confirmation_witness :
  st_fs (final_state (main (str "catalog.json") (str "imgs") true (str "y")
                        Examples.christmas_fs))
  = Examples.christmas_fs
  ∧ st_calls (final_state
                (main (str "catalog.json") (str "imgs") true (str "y")
                   Examples.christmas_fs)) = [].
Proof.
  apply main_needs_confirmation. right. right. left. reflexivity.
Defined.

Lemma main_calls_only_planned_witness :
  exists_ Examples.christmas_fs
    (str "imgs/1860-12-26_a-merry-christmas_Desconhecido_6733e6c8a768333c2576e98d.png")
  = true
  ∧ exists_ Examples.christmas_fs
      (str "imgs/1860-12-26_a-merry-christmas_Desconhecido.png") = false
  ∧ str "imgs/1860-12-26_a-merry-christmas_Desconhecido_6733e6c8a768333c2576e98d.png"
    ≠ str "imgs/1860-12-26_a-merry-christmas_Desconhecido.png".
Proof.
  apply (main_calls_only_planned (str "catalog.json") (str "imgs") false
           (str "Yes") Examples.christmas_fs
           (CallRename
              (str "imgs/1860-12-26_a-merry-christmas_Desconhecido_6733e6c8a768333c2576e98d.png")
              (str "imgs/1860-12-26_a-merry-christmas_Desconhecido.png") true)).
  vm_compute. left.
Defined.

Lemma cleanup_never_deletes_referenced_witness :
  ∃ entries e,
    iterdir CleanupExamples.fs (str "imgs") = Some entries
    ∧ e ∈ entries
    ∧ entry_is_file e = true
    ∧ has_image_extension (entry_name e)
    ∧ str "imgs/b.PNG"
      = pathlib.to_str (pathlib.truediv (str "imgs") (entry_name e))
    ∧ ∀ it u, it ∈ CleanupExamples.catalog ->
              it !! image_url = Some (VStr u) ->
              ¬ trailing_segment u (entry_name e).
Proof.
  apply (cleanup_never_deletes_referenced (str "catalog.json") (str "imgs")
           false (str "y") CleanupExamples.fs CleanupExamples.catalog
           (str "imgs/b.PNG") true).
  - vm_compute. reflexivity.
  - vm_compute. right. left.
Defined.

Lemma cleanup_needs_confirmation_witness :
  cl_fs (cleanup_final
           (cleanup_main (str "catalog.json") (str "imgs") false (str "n")
              CleanupExamples.fs))
  = CleanupExamples.fs
  ∧ cl_calls (cleanup_final
                (cleanup_main (str "catalog.json") (str "imgs") false (str "n")
                   CleanupExamples.fs)) = []
  ∧ cl_deleted_count
      (cleanup_final
         (cleanup_main (str "catalog.json") (str "imgs") false (str "n")
            CleanupExamples.fs)) = 0%nat.
Proof.
  apply cleanup_needs_confirmation. right.
  vm_compute. intros [H|H]; discriminate H.
Defined.

Lemma remove_unused_images_tries_each_once_witness :
  length (cl_calls
            (cleanup_final
               (remove_unused_images (str "imgs")
                  {[ str "a.png"; str "c.jpeg" ]} false (str "y")
                  CleanupExamples.fs)))
  = size ({[ str "b.PNG"; str "d.webp" ]} : gset pystr).
Proof.
  destruct (remove_unused_images_tries_each_once (str "imgs")
              {[ str "a.png"; str "c.jpeg" ]} (str "y") CleanupExamples.fs
              (default [] (iterdir CleanupExamples.fs (str "imgs")))
              {[ str "b.PNG"; str "d.webp" ]})
    as (_ & Hlen & _); [vm_compute; reflexivity..| |exact Hlen].
  left. reflexivity.
Defined.

Lemma unused_images_after_deletion_witness :
  unused_images
    (Some (filter (fun e => entry_name e ∉ ({[ str "b.PNG" ]} : gset pystr))
                  Examples.listing))
    {[ str "a.png" ]}
  = Some ∅.
Proof.
  apply unused_images_after_deletion. vm_compute. reflexivity.
Defined.
